(** * Temo Connect API: access guards, farmer approval and product catalog

    A shallow embedding of the Express application of the backend (the
    server module with its nine routes) together with the relational
    store it talks to, and the properties of the specification proved
    against it.

    Conventions of the embedding.
    - A JavaScript value that can arrive in a JSON request body or sit in
      a result row is a [JSValue]; numbers are integral ([Z]).
    - The PostgreSQL pool is an explicit store [DB] threaded through a
      small state-and-exception monad [Query]; a rejected promise or a
      thrown exception is [Throw], and the [try { } catch { }] of every
      handler maps it to the 500 response.
    - [jsonwebtoken] and [bcryptjs] are libraries: their functions are
      variables of the section, except for the argument check of
      [bcryptjs], which rejects arguments that are not strings.
    - The table definitions are not part of the sources.  The [id]
      columns are taken to be integer keys drawn from a sequence and
      [created_at] is assigned by the store on insertion.  How the store
      reads a text parameter as a key ([key_of]) and which values a
      column takes ([accepts]) belong to those definitions and are
      variables of the sections. *)

From Stdlib Require Import ZArith Lia.
From stdpp Require Import base option strings list gmap sorting pretty.

(** ** JavaScript values *)

Inductive JSValue : Type :=
  | JUndefined
  | JNull
  | JBool (b : bool)
  | JNum (n : Z)
  | JStr (s : string).

#[global] Instance JSValue_eq_dec : EqDecision JSValue.
Proof. solve_decision. Defined.

#[global] Instance JSValue_inhabited : Inhabited JSValue := populate JUndefined.

(** [!!v]: the values that are not falsy. *)
Definition truthy (v : JSValue) : bool :=
  match v with
  | JUndefined | JNull => false
  | JBool b => b
  | JNum n => negb (n =? 0)%Z
  | JStr s => negb (String.eqb s "")
  end.

(** [a || b] *)
Definition js_or (a b : JSValue) : JSValue := if truthy a then a else b.

(** A plain object with ordered keys: a result row, an error body. *)
Definition JSObject : Type := list (string * JSValue).

Fixpoint get (k : string) (o : JSObject) : JSValue :=
  match o with
  | [] => JUndefined
  | (k', v) :: o' => if String.eqb k k' then v else get k o'
  end.

Definition keys (o : JSObject) : list string := map fst o.

(** [const { k, ...rest } = o]: the rest object. *)
Definition omit (k : string) (o : JSObject) : JSObject :=
  filter (λ kv, kv.1 ≠ k) o.

(** The parsed JSON body; destructuring an absent key gives [undefined]. *)
Definition field (body : gmap string JSValue) (k : string) : JSValue :=
  default JUndefined (body !! k).

(** ** Tables *)

Module Users.
(** Modelled from the spec: the users table, whose definition is not in
    the sources, with the columns the statements name:
    [{id (unique), name, email (unique), password_hash, role, status,
    created_at}]. *)
Record t : Type := mk {
  id : Z;
  name : string;
  email : string;
  password_hash : string;
  role : string;
  status : string;
  created_at : Z
}.

(** [SELECT *] *)
Definition row (u : t) : JSObject :=
  [ ("id", JNum (id u)); ("name", JStr (name u)); ("email", JStr (email u));
    ("password_hash", JStr (password_hash u)); ("role", JStr (role u));
    ("status", JStr (status u)); ("created_at", JNum (created_at u)) ].

(** [RETURNING id, name, email, role, status] *)
Definition returning (u : t) : JSObject :=
  [ ("id", JNum (id u)); ("name", JStr (name u)); ("email", JStr (email u));
    ("role", JStr (role u)); ("status", JStr (status u)) ].

(** [SELECT id, name, email, role, status, created_at] *)
Definition pending_row (u : t) : JSObject :=
  [ ("id", JNum (id u)); ("name", JStr (name u)); ("email", JStr (email u));
    ("role", JStr (role u)); ("status", JStr (status u));
    ("created_at", JNum (created_at u)) ].

Definition set_status (s : string) (u : t) : t :=
  mk (id u) (name u) (email u) (password_hash u) (role u) s (created_at u).
End Users.

Module Products.
(** Modelled from the spec: the products table, whose definition is not
    in the sources, with the columns the statements name:
    [{id (unique), farmer_id, name, price, quantity, image_url,
    description, created_at}].  The data columns hold the parameter as
    the driver passed it, SQL NULL being [JNull]; which parameters a
    column rejects is left to the store ([accepts] below), and what the
    column types of the schema would coerce is not modelled. *)
Record t : Type := mk {
  id : Z;
  farmer_id : Z;
  name : JSValue;
  price : JSValue;
  quantity : JSValue;
  image_url : JSValue;
  description : JSValue;
  created_at : Z
}.

(** [SELECT *] and [RETURNING *] *)
Definition row (p : t) : JSObject :=
  [ ("id", JNum (id p)); ("farmer_id", JNum (farmer_id p));
    ("name", name p); ("price", price p); ("quantity", quantity p);
    ("image_url", image_url p); ("description", description p);
    ("created_at", JNum (created_at p)) ].

(** The columns of the public listing, with the owner's name. *)
Definition public_row (pu : t * Users.t) : JSObject :=
  [ ("id", JNum (id pu.1)); ("name", name pu.1); ("price", price pu.1);
    ("quantity", quantity pu.1); ("image_url", image_url pu.1);
    ("description", description pu.1);
    ("farmer_name", JStr (Users.name pu.2)) ].
End Products.

#[global] Instance Users_eq_dec : EqDecision Users.t.
Proof. solve_decision. Defined.
#[global] Instance Products_eq_dec : EqDecision Products.t.
Proof. solve_decision. Defined.

(** Modelled from the spec: the store behind the pool.  The two tables,
    the sequences the [id] columns draw from, and the clock that
    [created_at] is taken from on insertion. *)
Record DB : Type := mkDB {
  users : list Users.t;
  products : list Products.t;
  users_id_seq : Z;
  products_id_seq : Z;
  now : Z
}.

(** ** Queries: state and exceptions *)

Inductive Res (A : Type) : Type :=
  | Ret (a : A)
  | Throw (e : string).
Arguments Ret {A} a.
Arguments Throw {A} e.

Definition Query (A : Type) : Type := DB → Res A * DB.

Definition ret {A} (a : A) : Query A := λ db, (Ret a, db).
Definition throw {A} (e : string) : Query A := λ db, (Throw e, db).
Definition bind {A B} (m : Query A) (k : A → Query B) : Query B :=
  λ db, match m db with
        | (Ret a, db') => k a db'
        | (Throw e, db') => (Throw e, db')
        end.

Notation "'let*' x ':=' m 'in' k" := (bind m (λ x, k))
  (at level 10, x name, m at level 100, k at level 200).

(** ** Parameters of a query, as the driver prepares them *)

(** [undefined] is sent as NULL. *)
Definition pg_param (v : JSValue) : JSValue :=
  match v with JUndefined => JNull | _ => v end.

(** A parameter compared with or stored in a text column. *)
Definition pg_text (v : JSValue) : option string :=
  match v with
  | JUndefined | JNull => None
  | JBool true => Some "true"
  | JBool false => Some "false"
  | JNum n => Some (pretty n)
  | JStr s => Some s
  end.

(** A parameter compared with or stored in an integer key column.  The
    ids of a token come from a user row, where they are numbers; a
    parameter of another type is taken to be rejected by the store. *)
Definition pg_int (v : JSValue) : Query (option Z) :=
  match v with
  | JUndefined | JNull => ret None
  | JNum n => ret (Some n)
  | JBool _ | JStr _ => throw "invalid input syntax for type integer"
  end.

(** [COALESCE($n, column)] *)
Definition coalesce (param column : JSValue) : JSValue :=
  match pg_param param with JNull => column | v => v end.

(** ** Requests and responses *)

Module Claims.
(** The payload of a token: [{ id, role, status, name }]. *)
Record t : Type := mk {
  id : JSValue;
  role : JSValue;
  status : JSValue;
  name : JSValue
}.
End Claims.

Record Request : Type := mkRequest {
  authorization : option string;   (* req.headers.authorization *)
  params_id : string;              (* req.params.id *)
  body : gmap string JSValue;      (* req.body *)
  user : option Claims.t           (* req.user, set by [auth] *)
}.

Inductive Payload : Type :=
  | JsonObject (o : JSObject)
  | JsonRows (rows : list JSObject)
  | JsonUserToken (user : JSObject) (token : string)
  | JsonUndefined
  | ErrorPage.

Record Response : Type := mkResponse {
  code : Z;
  payload : Payload
}.

(** [res.status(c).json({ error: msg })] *)
Definition json_error (c : Z) (msg : string) : Response :=
  mkResponse c (JsonObject [("error", JStr msg)]).

(** [res.json({ ok: true })] *)
Definition json_ok : Response :=
  mkResponse 200 (JsonObject [("ok", JBool true)]).

Definition server_error : Response := json_error 500 "Server error".

Definition Handler : Type := Request → DB → Response * DB.

(** [try { ... } catch (e) { res.status(500).json(...) }] *)
Definition try_catch (m : Query Response) : DB → Response * DB :=
  λ db, match m db with
        | (Ret r, db') => (r, db')
        | (Throw _, db') => (server_error, db')
        end.

(** What a middleware does with a request: call [next()], answer, or
    throw. *)
Inductive Outcome : Type :=
  | Next (req : Request)
  | Respond (r : Response)
  | Raise (e : string).

Definition Middleware : Type := Request → Outcome.

(** [app.METHOD(path, m1, ..., mn, handler)]: the first middleware that
    does not call [next()] ends the request; an exception thrown by a
    middleware reaches the framework's error page. *)
Fixpoint route (ms : list Middleware) (h : Handler) : Handler :=
  match ms with
  | [] => h
  | m :: ms' =>
      λ req db,
        match m req with
        | Next req' => route ms' h req' db
        | Respond r => (r, db)
        | Raise _ => (mkResponse 500 ErrorPage, db)
        end
  end.

(** ** Statements sent to the pool *)

(** [SELECT ... FROM users WHERE email=$1].  The parameter is compared
    as the text it is; a text that the store would refuse to read (one
    with a zero byte) finds no row here, where the store would fail. *)
Definition select_users_by_email (email : JSValue) : Query (list Users.t) :=
  λ db, (Ret match pg_text email with
             | None => []
             | Some e => filter (λ u, Users.email u = e) (users db)
             end, db).

Definition not_null (v : JSValue) : Query string :=
  match pg_text v with
  | Some s => ret s
  | None => throw "null value violates not-null constraint"
  end.

(** [WHERE u.role='farmer' AND u.status='approved'] on the join
    [u.id = p.farmer_id]. *)
Definition approved_owner (p : Products.t) (u : Users.t) : Prop :=
  Users.id u = Products.farmer_id p ∧
  Users.role u = "farmer" ∧ Users.status u = "approved".

#[global] Instance approved_owner_dec p u : Decision (approved_owner p u).
Proof. unfold approved_owner. apply _. Defined.

(** [ORDER BY created_at DESC], on the product of a joined row. *)
Definition newer_first (x y : Products.t * Users.t) : Prop :=
  (Products.created_at y.1 ≤ Products.created_at x.1)%Z.

#[global] Instance newer_first_dec x y : Decision (newer_first x y).
Proof. unfold newer_first. apply _. Defined.

(** [FROM products p JOIN users u ON u.id = p.farmer_id WHERE ...] *)
Definition join_approved (db : DB) : list (Products.t * Users.t) :=
  flat_map (λ p, map (pair p) (filter (approved_owner p) (users db)))
           (products db).

(** The select of the public listing. *)
Definition select_public_products : Query (list JSObject) :=
  λ db, (Ret (map Products.public_row
                  (merge_sort newer_first (join_approved db))), db).

(** [WHERE id=$1 AND farmer_id=$2] *)
Definition owned_by (id : Z) (owner : option Z) (p : Products.t) : Prop :=
  Products.id p = id ∧ owner = Some (Products.farmer_id p).

#[global] Instance owned_by_dec id owner p : Decision (owned_by id owner p).
Proof. unfold owned_by. apply _. Defined.

(** The [SET] clause of the update: every column is
    [COALESCE($n, column)]. *)
Definition merge_fields (name price quantity image_url description : JSValue)
    (p : Products.t) : Products.t :=
  Products.mk (Products.id p) (Products.farmer_id p)
    (coalesce name (Products.name p))
    (coalesce price (Products.price p))
    (coalesce quantity (Products.quantity p))
    (coalesce image_url (Products.image_url p))
    (coalesce description (Products.description p))
    (Products.created_at p).

(** [ORDER BY created_at ASC] *)
Definition older_first (x y : Users.t) : Prop :=
  (Users.created_at x ≤ Users.created_at y)%Z.

#[global] Instance older_first_dec x y : Decision (older_first x y).
Proof. unfold older_first. apply _. Defined.

(** [SELECT id, name, email, role, status, created_at FROM users
     WHERE role='farmer' AND status='pending' ORDER BY created_at ASC] *)
Definition select_pending_farmers : Query (list JSObject) :=
  λ db,
    (Ret (map Users.pending_row
              (merge_sort older_first
                 (filter (λ u, Users.role u = "farmer" ∧
                               Users.status u = "pending") (users db)))), db).

(** [WHERE id=$1 AND role='farmer'] *)
Definition farmer_with_id (id : Z) (u : Users.t) : Prop :=
  Users.id u = id ∧ Users.role u = "farmer".

#[global] Instance farmer_with_id_dec id u : Decision (farmer_with_id id u).
Proof. unfold farmer_with_id. apply _. Defined.

Section Store.
(** What the table definitions decide: [key_of s] is the key that the
    store reads from the text parameter [s] compared with an [id] column,
    [None] when it rejects the text (["abc"], a number out of range);
    [accepts column v] tells whether the column takes the parameter [v],
    which is not NULL (a text column does not take a string with a zero
    byte, a numeric column does not take ["abc"]).  A statement with a
    parameter that the store rejects fails before it runs. *)
Variable key_of : string → option Z.
Variable accepts : string → JSValue → bool.

(** A parameter compared with an [id] column. *)
Definition pg_key (s : string) : Query Z :=
  match key_of s with
  | Some i => ret i
  | None => throw "invalid input syntax for type integer"
  end.

(** A parameter stored in a column; NULL goes into every column here. *)
Definition takes (column : string) (v : JSValue) : bool :=
  match pg_param v with
  | JNull => true
  | p => accepts column p
  end.

(** [INSERT INTO users (name, email, password_hash, role, status)
     VALUES ($1,$2,$3,$4,$5) RETURNING id, name, email, role, status];
    [email] is unique (the seeding script relies on the conflict); a row
    that the constraint refuses has already drawn its id. *)
Definition insert_user (name email : JSValue) (hash : string)
    (role : JSValue) (status : string) : Query JSObject :=
  let* n := not_null name in
  let* e := not_null email in
  let* r := not_null role in
  if negb (takes "users.name" name && takes "users.email" email)
  then throw "invalid input for the column"
  else
  λ db,
    if bool_decide (e ∈ map Users.email (users db))
    then (Throw "duplicate key value violates unique constraint",
          mkDB (users db) (products db) (users_id_seq db + 1)
               (products_id_seq db) (now db))
    else
      let u := Users.mk (users_id_seq db) n e hash r status (now db) in
      (Ret (Users.returning u),
       mkDB (users db ++ [u]) (products db)
            (users_id_seq db + 1) (products_id_seq db) (now db + 1)).

(** [INSERT INTO products (farmer_id, name, price, quantity, image_url,
     description) VALUES ($1,...,$6) RETURNING *] *)
Definition insert_product (farmer_id name price quantity image_url
    description : JSValue) : Query JSObject :=
  let* owner := pg_int farmer_id in
  if negb (takes "products.name" name && takes "products.price" price &&
           takes "products.quantity" quantity &&
           takes "products.image_url" image_url &&
           takes "products.description" description)
  then throw "invalid input for the column"
  else
  match owner with
  | None => throw "null value violates not-null constraint"
  | Some f =>
      λ db,
        let p := Products.mk (products_id_seq db) f (pg_param name)
                   (pg_param price) (pg_param quantity)
                   (pg_param image_url) (pg_param description) (now db) in
        (Ret (Products.row p),
         mkDB (users db) (products db ++ [p])
              (users_id_seq db) (products_id_seq db + 1) (now db + 1))
  end.

(** [SELECT id FROM products WHERE id=$1 AND farmer_id=$2] *)
Definition select_owned_product (id : string) (farmer_id : JSValue)
    : Query (list JSObject) :=
  let* i := pg_key id in
  let* owner := pg_int farmer_id in
  λ db, (Ret (map (λ p, [("id", JNum (Products.id p))])
                  (filter (owned_by i owner) (products db))), db).

(** [UPDATE products SET ... WHERE id=$6 RETURNING *] *)
Definition update_product (name price quantity image_url description : JSValue)
    (id : string) : Query (list JSObject) :=
  let* i := pg_key id in
  if negb (takes "products.name" name && takes "products.price" price &&
           takes "products.quantity" quantity &&
           takes "products.image_url" image_url &&
           takes "products.description" description)
  then throw "invalid input for the column"
  else
  λ db,
    let upd p := if decide (Products.id p = i)
                 then merge_fields name price quantity image_url description p
                 else p in
    (Ret (map (λ p, Products.row (upd p))
              (filter (λ p, Products.id p = i) (products db))),
     mkDB (users db) (map upd (products db))
          (users_id_seq db) (products_id_seq db) (now db)).

(** [DELETE FROM products WHERE id=$1 AND farmer_id=$2]; the result is
    [rowCount]. *)
Definition delete_product (id : string) (farmer_id : JSValue) : Query nat :=
  let* i := pg_key id in
  let* owner := pg_int farmer_id in
  λ db,
    (Ret (length (filter (owned_by i owner) (products db))),
     mkDB (users db) (filter (λ p, ¬ owned_by i owner p) (products db))
          (users_id_seq db) (products_id_seq db) (now db)).

(** [UPDATE users SET status='approved' WHERE id=$1 AND role='farmer'];
    the result is [rowCount], the number of rows the [WHERE] clause
    selects. *)
Definition approve_farmer (id : string) : Query nat :=
  let* i := pg_key id in
  λ db,
    (Ret (length (filter (farmer_with_id i) (users db))),
     mkDB (map (λ u, if decide (farmer_with_id i u)
                     then Users.set_status "approved" u else u) (users db))
          (products db) (users_id_seq db) (products_id_seq db) (now db)).
End Store.

(** ** The application *)

Inductive Endpoint : Type :=
  | GET_root
  | POST_auth_register
  | POST_auth_login
  | GET_products
  | POST_products
  | PUT_products_id
  | DELETE_products_id
  | GET_admin_farmers_pending
  | PATCH_admin_farmers_id_approve.

#[global] Instance Endpoint_eq_dec : EqDecision Endpoint.
Proof. solve_decision. Defined.




Section Server.
(** The two decisions of the table definitions, as in the store. *)
Variable key_of : string → option Z.
Variable accepts : string → JSValue → bool.

(** [jwt.sign(payload, secret, options)], [jwt.verify(token, secret)]
    ([None] when it throws), [bcrypt.hash(s, 10)] and
    [bcrypt.compare(s, hash)] on strings. *)
Variable jwt_sign : Claims.t → string.
Variable jwt_verify : string → option Claims.t.
Variable bcrypt_hash : string → string.
Variable bcrypt_compare : string → string → bool.

Definition signToken (user : JSObject) : string :=
  jwt_sign (Claims.mk (get "id" user) (get "role" user)
                      (get "status" user) (get "name" user)).

Definition hash (s : JSValue) : Query string :=
  match s with
  | JStr p => ret (bcrypt_hash p)
  | _ => throw "Illegal arguments"
  end.

Definition compare (s h : JSValue) : Query bool :=
  match s, h with
  | JStr p, JStr h' => ret (bcrypt_compare p h')
  | _, _ => throw "Illegal arguments"
  end.

(** *** Helpers *)

Definition auth : Middleware := λ req,
  let hdr := default "" (authorization req) in
  let token := if String.prefix "Bearer " hdr
               then Some (String.substring 7 (String.length hdr - 7) hdr)
               else None in
  match token with
  | None => Respond (json_error 401 "Missing token")
  | Some t =>
      if String.eqb t "" then Respond (json_error 401 "Missing token")
      else match jwt_verify t with
           | Some claims =>
               Next (mkRequest (authorization req) (params_id req)
                               (body req) (Some claims))
           | None => Respond (json_error 401 "Invalid token")
           end
  end.

Definition requireRole (roles : list string) : Middleware := λ req,
  match user req with
  | None => Respond (json_error 403 "Forbidden")
  | Some claims =>
      if bool_decide (Claims.role claims ∈ map JStr roles)
      then Next req
      else Respond (json_error 403 "Forbidden")
  end.

Definition requireApprovedFarmer : Middleware := λ req,
  match user req with
  | None => Raise "TypeError: Cannot read properties of undefined"
  | Some claims =>
      if bool_decide (Claims.role claims ≠ JStr "farmer")
      then Respond (json_error 403 "Farmer only")
      else if bool_decide (Claims.status claims ≠ JStr "approved")
      then Respond (json_error 403 "Farmer not approved by admin yet")
      else Next req
  end.

(** [req.user.id] inside a handler. *)
Definition user_id (req : Request) : Query JSValue :=
  match user req with
  | None => throw "TypeError: Cannot read properties of undefined"
  | Some claims => ret (Claims.id claims)
  end.

(** *** Auth *)

Definition register : Handler := λ req,
  try_catch (
    let name := field (body req) "name" in
    let email := field (body req) "email" in
    let password := field (body req) "password" in
    let role := field (body req) "role" in
    if negb (truthy name) || negb (truthy email) ||
       negb (truthy password) || negb (truthy role)
    then ret (json_error 400 "Missing fields")
    else if negb (bool_decide (role ∈ [JStr "consumer"; JStr "farmer"]))
    then ret (json_error 400 "Invalid role")
    else
      let* existing := select_users_by_email email in
      if negb (length existing =? 0)%nat
      then ret (json_error 409 "Email already registered")
      else
        let* h := hash password in
        let status := if bool_decide (role = JStr "farmer")
                      then "pending" else "approved" in
        let* row := insert_user accepts name email h role status in
        let token := signToken row in
        ret (mkResponse 201 (JsonUserToken row token))).

Definition login : Handler := λ req,
  try_catch (
    let email := field (body req) "email" in
    let password := field (body req) "password" in
    let* rows := select_users_by_email email in
    match rows with
    | [] => ret (json_error 401 "Invalid credentials")
    | u :: _ =>
        let user := Users.row u in
        let* ok := compare password (get "password_hash" user) in
        if negb ok then ret (json_error 401 "Invalid credentials")
        else
          let safe := omit "password_hash" user in
          let token := signToken user in
          ret (mkResponse 200 (JsonUserToken safe token))
    end).

(** *** Products *)

Definition list_products : Handler := λ _,
  try_catch (
    let* rows := select_public_products in
    ret (mkResponse 200 (JsonRows rows))).

Definition create_product : Handler := λ req,
  try_catch (
    let name := field (body req) "name" in
    let price := field (body req) "price" in
    let quantity := field (body req) "quantity" in
    let image_url := field (body req) "image_url" in
    let description := field (body req) "description" in
    if negb (truthy name) || negb (truthy price) || negb (truthy quantity)
    then ret (json_error 400 "name, price, quantity are required")
    else
      let* uid := user_id req in
      let* row := insert_product accepts uid name price quantity
                    (js_or image_url JNull) (js_or description JNull) in
      ret (mkResponse 201 (JsonObject row))).

Definition update_product_handler : Handler := λ req,
  try_catch (
    let id := params_id req in
    let* uid := user_id req in
    let* ownerCheck := select_owned_product key_of id uid in
    if (length ownerCheck =? 0)%nat
    then ret (json_error 404 "Product not found")
    else
      let name := field (body req) "name" in
      let price := field (body req) "price" in
      let quantity := field (body req) "quantity" in
      let image_url := field (body req) "image_url" in
      let description := field (body req) "description" in
      let* rows := update_product key_of accepts name price quantity
                     image_url description id in
      match rows with
      | row :: _ => ret (mkResponse 200 (JsonObject row))
      | [] => ret (mkResponse 200 JsonUndefined)
      end).

Definition delete_product_handler : Handler := λ req,
  try_catch (
    let id := params_id req in
    let* uid := user_id req in
    let* rowCount := delete_product key_of id uid in
    if (rowCount =? 0)%nat
    then ret (json_error 404 "Product not found")
    else ret json_ok).

(** *** Admin *)

Definition list_pending_farmers : Handler := λ _,
  try_catch (
    let* rows := select_pending_farmers in
    ret (mkResponse 200 (JsonRows rows))).

Definition approve : Handler := λ req,
  try_catch (
    let id := params_id req in
    let* rowCount := approve_farmer key_of id in
    if (rowCount =? 0)%nat
    then ret (json_error 404 "Farmer not found or already approved")
    else ret json_ok).

(** The seeding script:
    [INSERT INTO users (name, email, password_hash, role, status)
     VALUES ($1,$2,$3,'admin','approved') ON CONFLICT (email) DO NOTHING].
    On a conflict no row is written, but the row that was tried has
    drawn its id from the sequence. *)
Definition seed_admin : Query unit :=
  let* h := hash (JStr "Admin@123") in
  λ db,
    if bool_decide ("admin@temo.local" ∈ map Users.email (users db))
    then (Ret (), mkDB (users db) (products db) (users_id_seq db + 1)
                       (products_id_seq db) (now db))
    else
      let u := Users.mk (users_id_seq db) "Admin" "admin@temo.local" h
                 "admin" "approved" (now db) in
      (Ret (), mkDB (users db ++ [u]) (products db)
                    (users_id_seq db + 1) (products_id_seq db) (now db + 1)).

Definition health : Handler := λ _ db,
  (mkResponse 200 (JsonObject [("ok", JBool true);
      ("message", JStr "Temo Connect API running")]), db).

(** The routing table. *)
Definition app (e : Endpoint) : Handler :=
  match e with
  | GET_root => health
  | POST_auth_register => register
  | POST_auth_login => login
  | GET_products => list_products
  | POST_products => route [auth; requireApprovedFarmer] create_product
  | PUT_products_id =>
      route [auth; requireApprovedFarmer] update_product_handler
  | DELETE_products_id =>
      route [auth; requireApprovedFarmer] delete_product_handler
  | GET_admin_farmers_pending =>
      route [auth; requireRole ["admin"]] list_pending_farmers
  | PATCH_admin_farmers_id_approve =>
      route [auth; requireRole ["admin"]] approve
  end.


(** *** Notions the properties are stated with *)

(** The request as [auth] hands it on. *)
Definition authenticated (req : Request) (c : Claims.t) : Request :=
  mkRequest (authorization req) (params_id req) (body req) (Some c).

(** A bearer header with a token that verifies. *)
Definition bearer (req : Request) (c : Claims.t) : Prop :=
  ∃ tok, authorization req = Some ("Bearer " +:+ tok) ∧ tok ≠ "" ∧
         jwt_verify tok = Some c.
End Server.

(** The values a required field is rejected for: absent, or falsy. *)
Definition falsy (v : JSValue) : Prop :=
  v = JUndefined ∨ v = JNull ∨ v = JBool false ∨ v = JNum 0 ∨ v = JStr "".

(** A field of the body counts as provided unless it is absent or
    null. *)
Definition provided (v : JSValue) : Prop := v ≠ JUndefined ∧ v ≠ JNull.

(** The columns an update can write, by the key of the body. *)
Definition columns : list (string * (Products.t → JSValue)) :=
  [ ("name", Products.name); ("price", Products.price);
    ("quantity", Products.quantity); ("image_url", Products.image_url);
    ("description", Products.description) ].

(** [new] is [old] after the body has been merged into it. *)
Definition merged (b : gmap string JSValue) (old new : Products.t) : Prop :=
  Products.id new = Products.id old ∧
  Products.farmer_id new = Products.farmer_id old ∧
  Products.created_at new = Products.created_at old ∧
  ∀ k col, (k, col) ∈ columns →
    (provided (field b k) → col new = field b k) ∧
    (¬ provided (field b k) → col new = col old).

(** How a user row comes into being through the API: a farmer pending,
    a consumer approved. *)
Definition created_as (role : JSValue) (u : Users.t) : Prop :=
  (role = JStr "farmer" ∧ Users.role u = "farmer" ∧
   Users.status u = "pending") ∨
  (role = JStr "consumer" ∧ Users.role u = "consumer" ∧
   Users.status u = "approved").

(** No user row is added or removed: the ids are the same, in order. *)
Definition same_user_ids (db db' : DB) : Prop :=
  map Users.id (users db') = map Users.id (users db).


(** ** Sample data *)

Module Sample.
Definition alice : Claims.t :=
  Claims.mk (JNum 1) (JStr "farmer") (JStr "pending") (JStr "Alice").
Definition bob : Claims.t :=
  Claims.mk (JNum 2) (JStr "farmer") (JStr "approved") (JStr "Bob").
Definition root : Claims.t :=
  Claims.mk (JNum 3) (JStr "admin") (JStr "approved") (JStr "Admin").

(** A toy token service: the token is the lower-case name. *)
Definition sign (c : Claims.t) : string :=
  match Claims.name c with
  | JStr "Alice" => "alice"
  | JStr "Bob" => "bob"
  | JStr "Admin" => "root"
  | _ => "anonymous"
  end.

Definition verify (t : string) : option Claims.t :=
  if String.eqb t "alice" then Some alice
  else if String.eqb t "bob" then Some bob
  else if String.eqb t "root" then Some root
  else None.

(** A toy password hash. *)
Definition hash (s : string) : string := "h:" +:+ s.
Definition compare (s h : string) : bool := String.eqb (hash s) h.

(** A toy store: a key is written with decimal digits and fits 32 bits;
    a text column takes every string without a zero byte, the price and
    the quantity take numbers.  (PostgreSQL reads a few more texts as a
    key, with a sign or blanks around the digits, and takes a string that
    spells a number as a price.) *)
Fixpoint digits (s : string) (acc : Z) : option Z :=
  match s with
  | EmptyString => Some acc
  | String c s' =>
      let n := Z.of_nat (Ascii.nat_of_ascii c) in
      if (48 <=? n)%Z && (n <=? 57)%Z
      then digits s' (10 * acc + (n - 48))%Z
      else None
  end.

Definition key_of (s : string) : option Z :=
  match s with
  | EmptyString => None
  | _ => match digits s 0 with
         | Some i => if (i <=? 2147483647)%Z then Some i else None
         | None => None
         end
  end.

Fixpoint zero_free (s : string) : bool :=
  match s with
  | EmptyString => true
  | String c s' => negb (Ascii.eqb c Ascii.zero) && zero_free s'
  end.

Definition accepts (column : string) (v : JSValue) : bool :=
  match v with
  | JNum _ => true
  | JStr s =>
      zero_free s &&
      negb (String.eqb column "products.price" ||
            String.eqb column "products.quantity")
  | _ => false
  end.

(** A request with the path parameter written in decimal. *)
Definition request (hdr : option string) (id : Z)
    (fields : list (string * JSValue)) : Request :=
  mkRequest hdr (pretty id) (list_to_map fields) None.

Definition u_alice : Users.t :=
  Users.mk 1 "Alice" "alice@temo.local" "h:apples" "farmer" "pending" 10.
Definition u_bob : Users.t :=
  Users.mk 2 "Bob" "bob@temo.local" "h:beets" "farmer" "approved" 11.
Definition u_root : Users.t :=
  Users.mk 3 "Admin" "admin@temo.local" "h:Admin@123" "admin" "approved" 12.

Definition p_beets : Products.t :=
  Products.mk 1 2 (JStr "Beets") (JNum 4) (JNum 20)
              (JStr "/img/beets.png") JNull 20.
Definition p_apples : Products.t :=
  Products.mk 2 1 (JStr "Apples") (JNum 3) (JNum 50) JNull JNull 21.
Definition p_kale : Products.t :=
  Products.mk 3 2 (JStr "Kale") (JNum 2) (JNum 7) JNull
              (JStr "Curly") 22.

Definition db : DB :=
  mkDB [u_alice; u_bob; u_root] [p_beets; p_apples; p_kale] 4 4 30.

Definition server : Endpoint → Handler :=
  app key_of accepts sign verify hash compare.
End Sample.

(** Requests against the sample store. *)
Module Witness.
Import Sample.

(** Alice, a pending farmer, posts a product. *)
Definition alice_posts : Request :=
  request (Some "Bearer alice") 0
    [("name", JStr "Pears"); ("price", JNum 2); ("quantity", JNum 9)].

(** Bob, an approved farmer, posts a product with a price of 0. *)
Definition bob_posts_free : Request :=
  request (Some "Bearer bob") 0
    [("name", JStr "Chard"); ("price", JNum 0); ("quantity", JNum 9)].

(** Bob updates the apples of Alice (product 2). *)
Definition bob_updates_apples : Request :=
  request (Some "Bearer bob") 2 [("price", JNum 1)].

(** Bob updates under the path id abc, which is the id of no product. *)
Definition bob_updates_abc : Request :=
  mkRequest (Some "Bearer bob") "abc" (list_to_map [("price", JNum 1)]) None.

(** Bob updates the beets (product 1, owned by Bob): a new price, a null
    image. *)
Definition bob_updates_beets : Request :=
  request (Some "Bearer bob") 1 [("price", JNum 5); ("image_url", JNull)].

Definition carol_registers : Request :=
  request None 0
    [("name", JStr "Carol"); ("email", JStr "carol@temo.local");
     ("password", JStr "carrots"); ("role", JStr "farmer")].


Definition admin_lists : Request := request (Some "Bearer root") 0 [].
End Witness.

(** ** The login form of the consumer front end *)

Module LoginForm.
(** What the submit handler does to the page, in order. *)
Inductive Effect : Type :=
  | PreventDefault
  | Alert (msg : JSValue)
  | SetItem (key : string) (value : JSValue)   (* localStorage.setItem *)
  | Navigate (href : string)                   (* window.location.href = *)
  | ConsoleError.

(** [res.ok] *)
Definition ok (res : Response) : bool :=
  (200 <=? code res)%Z && (code res <=? 299)%Z.

(** [await res.json()]; [None] when the body is not JSON and the promise
    rejects. *)
Definition json (res : Response) : option Payload :=
  match payload res with
  | ErrorPage | JsonUndefined => None
  | data => Some data
  end.

(** [data.error] *)
Definition error (data : Payload) : JSValue :=
  match data with
  | JsonObject o => get "error" o
  | _ => JUndefined
  end.

(** [data.token] *)
Definition token (data : Payload) : JSValue :=
  match data with
  | JsonUserToken _ t => JStr t
  | JsonObject o => get "token" o
  | _ => JUndefined
  end.

(** [data.user.role]; [None] when [data.user] is undefined or null and
    the access throws. *)
Definition user_role (data : Payload) : option JSValue :=
  match data with
  | JsonUserToken u _ => Some (get "role" u)
  | JsonObject o =>
      match get "user" o with
      | JUndefined | JNull => None
      | _ => Some JUndefined
      end
  | _ => None
  end.

Definition server_down : list Effect :=
  [ConsoleError; Alert (JStr "Server error. Try again later.")].

(** The listener of the form's submit event.  [fetch] stands for the
    POST of the JSON body to the login route; [None] is a request that
    fails. *)
Definition submit (fetch : gmap string JSValue → option Response)
    (email password : string) : list Effect :=
  PreventDefault ::
  match fetch (<["email" := JStr email]> {["password" := JStr password]}) with
  | None => server_down
  | Some res =>
      match json res with
      | None => server_down
      | Some data =>
          if negb (ok res)
          then [Alert (js_or (error data) (JStr "Login failed"))]
          else
            SetItem "token" (token data) ::
            match user_role data with
            | None => server_down
            | Some role =>
                if bool_decide (role = JStr "consumer")
                then [Navigate "consumer-home.html"]
                else if bool_decide (role = JStr "farmer")
                then [Navigate "farmer-home.html"]
                else if bool_decide (role = JStr "admin")
                then [Navigate "admin-dashboard.html"]
                else []
            end
      end
  end.
End LoginForm.

(** ** Further notions *)

(** The routes that sit behind [auth]. *)
Definition protected (e : Endpoint) : Prop :=
  e ∈ [POST_products; PUT_products_id; DELETE_products_id;
       GET_admin_farmers_pending; PATCH_admin_farmers_id_approve].



(** The claims [signToken] takes from a stored user. *)
Definition claims_of (u : Users.t) : Claims.t :=
  Claims.mk (JNum (Users.id u)) (JStr (Users.role u))
            (JStr (Users.status u)) (JStr (Users.name u)).

(** A user is approved, or is a farmer still pending. *)
Definition status_ok (u : Users.t) : Prop :=
  Users.status u = "approved" ∨
  (Users.role u = "farmer" ∧ Users.status u = "pending").

(** The only change of a stored user: a farmer becomes approved. *)
Definition kept_or_approved (u u' : Users.t) : Prop :=
  u' = u ∨ (Users.role u = "farmer" ∧ u' = Users.set_status "approved" u).

(** The request of the login form, as the server receives it. *)
Definition login_request (b : gmap string JSValue) : Request :=
  mkRequest None "" b None.

(** The [SET] clause of the update with the fields of a body. *)
Definition merge_body (b : gmap string JSValue) (p : Products.t)
    : Products.t :=
  merge_fields (field b "name") (field b "price") (field b "quantity")
               (field b "image_url") (field b "description") p.

(** What the update statement does to a row, for the id of a request. *)
Definition update_row (b : gmap string JSValue) (id : Z) (p : Products.t)
    : Products.t :=
  if decide (Products.id p = id) then merge_body b p else p.

(** The product that a creation stores. *)
Definition new_product (db : DB) (owner : Z) (b : gmap string JSValue)
    : Products.t :=
  Products.mk (products_id_seq db) owner (field b "name") (field b "price")
    (field b "quantity") (js_or (field b "image_url") JNull)
    (js_or (field b "description") JNull) (now db).

(** The columns of the products table take the values that a creation
    sends for them. *)
Definition storable (accepts : string → JSValue → bool)
    (b : gmap string JSValue) : bool :=
  takes accepts "products.name" (field b "name") &&
  takes accepts "products.price" (field b "price") &&
  takes accepts "products.quantity" (field b "quantity") &&
  takes accepts "products.image_url" (js_or (field b "image_url") JNull) &&
  takes accepts "products.description"
    (js_or (field b "description") JNull).

(** The columns of the products table take the values that an update
    sends for them. *)
Definition updatable (accepts : string → JSValue → bool)
    (b : gmap string JSValue) : bool :=
  takes accepts "products.name" (field b "name") &&
  takes accepts "products.price" (field b "price") &&
  takes accepts "products.quantity" (field b "quantity") &&
  takes accepts "products.image_url" (field b "image_url") &&
  takes accepts "products.description" (field b "description").

(** Further requests against the sample store. *)
Module Scenario.
Import Sample.

Definition no_header : Request := request None 1 [].

Definition bob_lists_pending : Request := request (Some "Bearer bob") 0 [].

Definition dave_as_admin : Request :=
  request None 0
    [("name", JStr "Dave"); ("email", JStr "dave@temo.local");
     ("password", JStr "dates"); ("role", JStr "admin")].

Definition nameless : Request :=
  request None 0
    [("email", JStr "eve@temo.local"); ("password", JStr "eggs");
     ("role", JStr "consumer")].

Definition alice_again : Request :=
  request None 0
    [("name", JStr "Alice"); ("email", JStr "alice@temo.local");
     ("password", JStr "apples"); ("role", JStr "farmer")].

Definition erin_registers : Request :=
  request None 0
    [("name", JStr "Erin"); ("email", JStr "erin@temo.local");
     ("password", JStr "endive"); ("role", JStr "consumer")].

Definition alice_logs_in : Request :=
  request None 0
    [("email", JStr "alice@temo.local"); ("password", JStr "apples")].

Definition bob_posts_chard : Request :=
  request (Some "Bearer bob") 0
    [("name", JStr "Chard"); ("price", JNum 3); ("quantity", JNum 12);
     ("image_url", JStr "")].

Definition bob_deletes_beets : Request := request (Some "Bearer bob") 1 [].

Definition bob_deletes_apples : Request := request (Some "Bearer bob") 2 [].

Definition bob_touches_beets : Request := request (Some "Bearer bob") 1 [].

Definition admin_approves_alice : Request :=
  request (Some "Bearer root") 1 [].

Definition alice_with_token : Request :=
  request (Some "Bearer alice") 0 [].

Definition root_logs_in : Request :=
  request None 0
    [("email", JStr "admin@temo.local"); ("password", JStr "Admin@123")].

(** The sample store before the seeding script has run. *)
Definition unseeded : DB :=
  mkDB [u_alice; u_bob] [p_beets; p_apples; p_kale] 3 4 30.

(** The login route of the sample server, as the form reaches it. *)
Definition fetch (db : DB) (b : gmap string JSValue) : option Response :=
  Some (server POST_auth_login (login_request b) db).1.
End Scenario.

(** ** General facts *)

Lemma db_eta db :
  mkDB (users db) (products db) (users_id_seq db) (products_id_seq db)
       (now db) = db.
Proof. by destruct db. Qed.

Lemma substring_whole s : String.substring 0 (String.length s) s = s.
Proof. induction s as [|a s IH]; simpl; [done | by rewrite IH]. Qed.

Lemma filter_none {A} (P : A → Prop) `{∀ x, Decision (P x)} (l : list A) :
  (∀ x, x ∈ l → ¬ P x) → filter P l = [].
Proof.
  induction l as [|x l IH]; intros Hl; [done |].
  rewrite filter_cons_False; [| apply Hl; left].
  apply IH. intros y Hy. apply Hl. by right.
Qed.

Lemma filter_all {A} (P : A → Prop) `{∀ x, Decision (P x)} (l : list A) :
  (∀ x, x ∈ l → P x) → filter P l = l.
Proof.
  induction l as [|x l IH]; intros Hl; [done |].
  rewrite filter_cons_True; [| apply Hl; left].
  f_equal. apply IH. intros y Hy. apply Hl. by right.
Qed.

(** One step of a query: unfold the monad and compute. *)
Ltac run H := unfold bind, ret, throw in H; simpl in H.

Section Properties.
Variable key_of : string → option Z.
Variable accepts : string → JSValue → bool.
Variable jwt_sign : Claims.t → string.
Variable jwt_verify : string → option Claims.t.
Variable bcrypt_hash : string → string.
Variable bcrypt_compare : string → string → bool.

Abbreviation server :=
  (app key_of accepts jwt_sign jwt_verify bcrypt_hash bcrypt_compare).

Lemma auth_bearer req c :
  bearer jwt_verify req c → auth jwt_verify req = Next (authenticated req c).
Proof.
  intros (tok & Hhdr & Hne & Hv). unfold auth. rewrite Hhdr. simpl.
  rewrite Nat.sub_0_r, substring_whole.
  change ("" +:+ tok) with tok.
  replace (String.prefix "" tok) with true by (by destruct tok).
  destruct (String.eqb_spec tok ""); [done |]. rewrite Hv. unfold authenticated. by rewrite Hhdr.
Qed.

Lemma guard_pending req c :
  user req = Some c →
  Claims.role c = JStr "farmer" → Claims.status c ≠ JStr "approved" →
  requireApprovedFarmer req =
    Respond (json_error 403 "Farmer not approved by admin yet").
Proof.
  intros Hu Hr Hs. unfold requireApprovedFarmer. rewrite Hu, Hr.
  rewrite bool_decide_eq_false_2 by (by intros []).
  by rewrite bool_decide_eq_true_2.
Qed.

Lemma guard_not_farmer req c :
  user req = Some c → Claims.role c ≠ JStr "farmer" →
  requireApprovedFarmer req = Respond (json_error 403 "Farmer only").
Proof.
  intros Hu Hr. unfold requireApprovedFarmer. rewrite Hu.
  by rewrite bool_decide_eq_true_2.
Qed.

Lemma guard_approved req c :
  user req = Some c →
  Claims.role c = JStr "farmer" → Claims.status c = JStr "approved" →
  requireApprovedFarmer req = Next req.
Proof.
  intros Hu Hr Hs. unfold requireApprovedFarmer. rewrite Hu, Hr, Hs.
  rewrite bool_decide_eq_false_2 by (by intros []).
  by rewrite bool_decide_eq_false_2 by (by intros []).
Qed.

(** C1.  A request to POST, PUT or DELETE on the products routes that
    carries a valid token of a farmer whose status is pending is
    answered 403 and the store is left as it was.  The guard has two
    stages: any role other than farmer is answered 403 "Farmer only",
    and a farmer whose status is not approved is answered 403 with the
    different message "Farmer not approved by admin yet". *)
Theorem pending_farmer_is_forbidden e req db c :
  e ∈ [POST_products; PUT_products_id; DELETE_products_id] →
  bearer jwt_verify req c →
  Claims.role c = JStr "farmer" → Claims.status c = JStr "pending" →
  server e req db =
    (json_error 403 "Farmer not approved by admin yet", db) ∧
  code (json_error 403 "Farmer not approved by admin yet") = 403%Z ∧
  (∀ r claims, user r = Some claims →
     Claims.role claims ≠ JStr "farmer" →
     requireApprovedFarmer r = Respond (json_error 403 "Farmer only")) ∧
  (∀ r claims, user r = Some claims →
     Claims.role claims = JStr "farmer" →
     Claims.status claims ≠ JStr "approved" →
     requireApprovedFarmer r =
       Respond (json_error 403 "Farmer not approved by admin yet")) ∧
  json_error 403 "Farmer only" ≠
    json_error 403 "Farmer not approved by admin yet".
Proof.
  intros He Hb Hr Hs. split; [| split; [done | split; [| split]]].
  - assert (Hg : requireApprovedFarmer (authenticated req c) =
              Respond (json_error 403 "Farmer not approved by admin yet")).
    { apply guard_pending with c; [done | done |]. by rewrite Hs. }
    apply auth_bearer in Hb.
    set_unfold in He.
    destruct He as [-> | [-> | [-> | []]]]; simpl; by rewrite Hb, Hg.
  - apply guard_not_farmer.
  - apply guard_pending.
  - discriminate.
Qed.

(** C10.  [requireRole] never throws: without claims on the request, or
    with claims whose role is not one of the allowed roles, it answers
    403 "Forbidden"; it hands the request on only when the request
    carries claims whose role is one of the allowed roles. *)
Theorem requireRole_total roles req :
  (user req = None ∨
   (∃ c, user req = Some c ∧ Claims.role c ∉ map JStr roles) →
   requireRole roles req = Respond (json_error 403 "Forbidden")) ∧
  (∀ req', requireRole roles req = Next req' →
     req' = req ∧
     ∃ c r, user req = Some c ∧ Claims.role c = JStr r ∧ r ∈ roles) ∧
  (∀ e, requireRole roles req ≠ Raise e) ∧
  (∀ r, requireRole roles req = Respond r →
     r = json_error 403 "Forbidden").
Proof.
  unfold requireRole. repeat split.
  - intros [-> | (c & -> & Hc)]; [done |].
    by rewrite bool_decide_eq_false_2.
  - destruct (user req); [| done]. case_bool_decide; congruence.
  - destruct (user req) as [c|]; [| done].
    case_bool_decide as Hc; [| done].
    apply list_elem_of_fmap in Hc as (r & Hr & Hin). eauto.
  - intros e. destruct (user req); [| done]. by case_bool_decide.
  - intros r. destruct (user req); [| congruence].
    case_bool_decide; congruence.
Qed.

(** *** Product routes behind the guards *)

Lemma truthy_false v : truthy v = false ↔ falsy v.
Proof.
  unfold falsy. split.
  - destruct v as [| |[]|n|s]; simpl; intros H; try discriminate; auto.
    + apply negb_false_iff, Z.eqb_eq in H. subst. auto 6.
    + apply negb_false_iff, String.eqb_eq in H. subst. auto 6.
  - intros [-> | [-> | [-> | [-> | ->]]]]; reflexivity.
Qed.

Lemma approved_farmer_reaches req db c (h : Handler) :
  bearer jwt_verify req c →
  Claims.role c = JStr "farmer" → Claims.status c = JStr "approved" →
  route [auth jwt_verify; requireApprovedFarmer] h req db =
    h (authenticated req c) db.
Proof.
  intros Hb Hr Hs. simpl. rewrite (auth_bearer _ _ Hb).
  by rewrite (guard_approved (authenticated req c) c).
Qed.

(** C7.  Creating a product as an approved farmer fails with 400 as soon
    as name, price or quantity is absent or falsy, and the store is left
    as it was; a price of 0 or a quantity of 0 is such a value. *)
Theorem create_rejects_missing_fields req db c :
  bearer jwt_verify req c →
  Claims.role c = JStr "farmer" → Claims.status c = JStr "approved" →
  falsy (field (body req) "name") ∨ falsy (field (body req) "price") ∨
    falsy (field (body req) "quantity") →
  server POST_products req db =
    (json_error 400 "name, price, quantity are required", db) ∧
  falsy (JNum 0).
Proof.
  intros Hb Hr Hs Hf. split; [| unfold falsy; auto 6].
  unfold app. rewrite (approved_farmer_reaches _ _ c) by done.
  unfold create_product, try_catch. simpl.
  assert (negb (truthy (field (body req) "name")) ||
          negb (truthy (field (body req) "price")) ||
          negb (truthy (field (body req) "quantity")) = true) as ->; [| done].
  destruct Hf as [H | [H | H]]; apply truthy_false in H; rewrite H; simpl;
    by rewrite ?orb_true_r.
Qed.

Lemma no_owned_product (db : DB) (id b : Z) :
  (∀ p, p ∈ products db → Products.id p = id → Products.farmer_id p ≠ b) →
  ∀ p, p ∈ products db → ¬ owned_by id (Some b) p.
Proof.
  intros Hno p Hp [Hid Hown]. apply (Hno p Hp Hid). congruence.
Qed.

(** C5.  An approved farmer who updates or deletes under a path id that
    the store reads as a key, where no product with that key is owned by
    that farmer, gets 404 "Product not found" and the store is left as it
    was.  The condition covers a key that no product has and a key whose
    product belongs to another farmer alike, and the answer is the same
    in both cases.  A path id that the store does not read as a key
    makes the statement fail, and the answer is 500 "Server error",
    whatever the products are; the store is left as it was. *)
Theorem foreign_product_is_not_found e req db c b :
  e ∈ [PUT_products_id; DELETE_products_id] →
  bearer jwt_verify req c →
  Claims.role c = JStr "farmer" → Claims.status c = JStr "approved" →
  Claims.id c = JNum b →
  match key_of (params_id req) with
  | Some i =>
      (∀ p, p ∈ products db → Products.id p = i →
            Products.farmer_id p ≠ b) →
      server e req db = (json_error 404 "Product not found", db)
  | None => server e req db = (server_error, db)
  end.
Proof.
  intros He Hb Hr Hs Hid.
  destruct (key_of (params_id req)) as [i|] eqn:Hkey.
  - intros Hno'.
    pose proof (no_owned_product _ _ _ Hno') as Hno.
    set_unfold in He. destruct He as [-> | [-> | []]]; unfold app;
      rewrite (approved_farmer_reaches _ _ c) by done.
    + unfold update_product_handler, try_catch, user_id,
        select_owned_product, pg_key.
      simpl. rewrite Hid, Hkey. simpl. unfold bind, ret. simpl.
      by rewrite (filter_none _ _ Hno).
    + unfold delete_product_handler, try_catch, user_id, delete_product,
        pg_key.
      simpl. rewrite Hid, Hkey. simpl. unfold bind, ret. simpl.
      rewrite (filter_none _ _ Hno). simpl.
      rewrite (filter_all (λ p, ¬ owned_by i (Some b) p)) by done.
      by rewrite db_eta.
  - set_unfold in He. destruct He as [-> | [-> | []]]; unfold app;
      rewrite (approved_farmer_reaches _ _ c) by done.
    + unfold update_product_handler, try_catch, user_id,
        select_owned_product, pg_key.
      simpl. by rewrite Hkey.
    + unfold delete_product_handler, try_catch, user_id, delete_product,
        pg_key.
      simpl. by rewrite Hkey.
Qed.

(** *** Partial update *)

Lemma coalesce_spec v old :
  (provided v → coalesce v old = v) ∧ (¬ provided v → coalesce v old = old).
Proof.
  unfold provided. destruct v; simpl; split; try done;
    intros H; try (by destruct H); exfalso; apply H; by split.
Qed.

Lemma merge_fields_merged (b : gmap string JSValue) (p : Products.t) :
  merged b p (merge_fields (field b "name") (field b "price")
                (field b "quantity") (field b "image_url")
                (field b "description") p).
Proof.
  unfold merged. simpl. repeat split; try done.
  all: unfold columns in *; set_unfold;
    destruct_or!; simplify_eq; simpl; by apply coalesce_spec.
Qed.

Lemma auth_next req req' :
  auth jwt_verify req = Next req' → ∃ c, req' = authenticated req c.
Proof.
  unfold auth. intros H. repeat case_match; simplify_eq. by eexists.
Qed.

Lemma guarded_success (h : Handler) req db resp db' :
  route [auth jwt_verify; requireApprovedFarmer] h req db = (resp, db') →
  code resp = 200%Z →
  ∃ c, h (authenticated req c) db = (resp, db').
Proof.
  simpl. intros H Hc.
  destruct (auth jwt_verify req) as [r|r|] eqn:Ha.
  - apply auth_next in Ha as [c ->]. exists c.
    unfold requireApprovedFarmer in H. simpl in H.
    repeat case_bool_decide; by simplify_eq.
  - unfold auth in Ha. repeat case_match; by simplify_eq.
  - by simplify_eq.
Qed.

(** C6.  When an update succeeds, every product with the id of the
    request is the stored product with the body merged into it: a field
    that the body provides replaces the stored value, a field that is
    absent or null keeps the stored value; the other products and the
    users are untouched and the answer is the merged row.  So a column
    that holds a value never becomes null by an update. *)
Theorem update_merges_fields req db resp db' :
  server PUT_products_id req db = (resp, db') →
  code resp = 200%Z →
  ∃ i, key_of (params_id req) = Some i ∧
  Forall2 (λ old new, if decide (Products.id old = i)
                      then merged (body req) old new else new = old)
          (products db) (products db') ∧
  users db' = users db ∧
  (∃ old new, old ∈ products db ∧ Products.id old = i ∧
     merged (body req) old new ∧ new ∈ products db' ∧
     payload resp = JsonObject (Products.row new)) ∧
  (∀ old new k col, (k, col) ∈ columns → merged (body req) old new →
     col old ≠ JNull → col new ≠ JNull).
Proof.
  intros H Hc. unfold app in H.
  apply guarded_success in H as [c H]; [| done].
  unfold update_product_handler, try_catch, user_id, select_owned_product,
    update_product, pg_key in H. simpl in H.
  destruct (key_of (params_id req)) as [i|] eqn:Hkey;
    [| run H; by simplify_eq].
  exists i. split; [done |].
  destruct (Claims.id c) as [| | |b|] eqn:Hid; simpl in H;
    unfold bind, ret, throw in H; simpl in H; simplify_eq; try done.
  - rewrite (filter_none (owned_by i None)) in H
      by (by intros p _ [_ ?]).
    simpl in H. by simplify_eq.
  - rewrite (filter_none (owned_by i None)) in H
      by (by intros p _ [_ ?]).
    simpl in H. by simplify_eq.
  - set (upd := λ p : Products.t,
           if decide (Products.id p = i)
           then merge_fields (field (body req) "name")
                  (field (body req) "price") (field (body req) "quantity")
                  (field (body req) "image_url")
                  (field (body req) "description") p
           else p) in *.
    destruct (filter (owned_by i (Some b)) (products db))
      as [|o os] eqn:Ho; simpl in H; [by simplify_eq |].
    destruct (negb _) in H; simpl in H; [by simplify_eq |].
    assert (Hin : o ∈ filter (λ p, Products.id p = i) (products db)).
    { assert (Ho' : o ∈ filter (owned_by i (Some b)) (products db))
        by (rewrite Ho; left).
      apply list_elem_of_filter in Ho' as [[Ho' _] Hin].
      by apply list_elem_of_filter. }
    destruct (filter (λ p, Products.id p = i) (products db))
      as [|q qs] eqn:Hq; [by apply elem_of_nil in Hin |].
    simpl in H. simplify_eq. simpl.
    assert (Hqin : q ∈ filter (λ p, Products.id p = i) (products db))
      by (rewrite Hq; left).
    apply list_elem_of_filter in Hqin as [Hqid Hqin].
    split; [| split; [done | split]].
    + apply Forall2_fmap_r, Forall_Forall2_diag, Forall_forall.
      intros p _. simpl.
      destruct (decide (Products.id p = i)) as [Hp | Hp]; unfold upd.
      * rewrite decide_True by done. apply merge_fields_merged.
      * by rewrite decide_False.
    + exists q, (upd q). split; [done |]. split; [done |].
      split; [| split; [| done]].
      * unfold upd. rewrite decide_True by done. apply merge_fields_merged.
      * apply list_elem_of_fmap. by exists q.
    + intros old new k col Hk (_ & _ & _ & Hm) Hold.
      destruct (Hm k col Hk) as [Hp Hn].
      destruct (decide (provided (field (body req) k))) as [Hy | Hy].
      * rewrite (Hp Hy). apply Hy.
      * by rewrite (Hn Hy).
Qed.

(** *** The public listing *)

#[local] Instance newer_first_total : Total newer_first.
Proof. intros x y. unfold newer_first. lia. Qed.

#[local] Instance newer_first_trans : Transitive newer_first.
Proof. intros x y z. unfold newer_first. lia. Qed.

Lemma elem_of_join_approved db p u :
  (p, u) ∈ join_approved db ↔
  p ∈ products db ∧ u ∈ users db ∧ approved_owner p u.
Proof.
  unfold join_approved. rewrite list_elem_of_In, in_flat_map. split.
  - intros (p' & Hp & Hin). apply list_elem_of_In in Hp, Hin.
    apply list_elem_of_fmap in Hin as (u' & Heq & Hu). simplify_eq.
    apply list_elem_of_filter in Hu as [Ha Hu]. done.
  - intros (Hp & Hu & Ha). exists p. rewrite <- !list_elem_of_In.
    split; [done |]. apply list_elem_of_fmap. exists u.
    split; [done |]. by apply list_elem_of_filter.
Qed.

(** With [id] a key of the users table a product has at most one
    owner. *)
Lemma at_most_one_owner (us : list Users.t) (p : Products.t) :
  NoDup (map Users.id us) →
  filter (approved_owner p) us = [] ∨
  ∃ u, filter (approved_owner p) us = [u].
Proof.
  induction us as [|a us IH]; intros Hnd; [by left |].
  simpl in Hnd. apply NoDup_cons in Hnd as [Ha Hnd].
  destruct (decide (approved_owner p a)) as [Hpa | Hpa].
  - right. exists a. rewrite filter_cons_True by done. f_equal.
    apply filter_none. intros u Hu [Hid _]. apply Ha.
    apply list_elem_of_fmap. exists u. split; [| done].
    destruct Hpa as [Hpa _]. congruence.
  - rewrite filter_cons_False by done. auto.
Qed.

Lemma join_approved_products db :
  NoDup (map Users.id (users db)) →
  map fst (join_approved db) =
    filter (λ p, Exists (approved_owner p) (users db)) (products db).
Proof.
  intros Hnd. unfold join_approved.
  induction (products db) as [|p ps IH]; [done |].
  simpl. rewrite map_app, IH, map_map. simpl.
  destruct (at_most_one_owner (users db) p Hnd) as [He | [u He]];
    rewrite He; simpl.
  - rewrite filter_cons_False; [done |].
    rewrite Exists_exists. intros (u & Hu & Ha).
    assert (Hin : u ∈ filter (approved_owner p) (users db))
      by (by apply list_elem_of_filter).
    rewrite He in Hin. by apply elem_of_nil in Hin.
  - rewrite filter_cons_True; [done |].
    assert (Hin : u ∈ filter (approved_owner p) (users db))
      by (rewrite He; left).
    apply list_elem_of_filter in Hin as [Ha Hu].
    apply Exists_exists. eauto.
Qed.

(** C2.  In every state of the store the public listing answers 200 with
    the rows of a sequence [joined] of products paired with their
    owner: a pair is in the sequence exactly when the product is stored
    and its owner is stored with role farmer and status approved, as
    the store has them at the time of the request; every row carries
    the owner's name as [farmer_name]; the sequence is ordered by
    [created_at], newest first; and, [id] being a key of the users,
    the products of the sequence are exactly the stored products that
    have such an owner, each once.  The store is left as it was. *)
Theorem public_listing_is_live_join req db :
  ∃ joined : list (Products.t * Users.t),
    server GET_products req db =
      (mkResponse 200 (JsonRows (map Products.public_row joined)), db) ∧
    (∀ p u, (p, u) ∈ joined ↔
       p ∈ products db ∧ u ∈ users db ∧
       Users.id u = Products.farmer_id p ∧
       Users.role u = "farmer" ∧ Users.status u = "approved") ∧
    (∀ x, get "farmer_name" (Products.public_row x) = JStr (Users.name x.2) ∧
          get "id" (Products.public_row x) = JNum (Products.id x.1) ∧
          get "name" (Products.public_row x) = Products.name x.1 ∧
          get "price" (Products.public_row x) = Products.price x.1 ∧
          get "quantity" (Products.public_row x) = Products.quantity x.1 ∧
          get "image_url" (Products.public_row x) = Products.image_url x.1 ∧
          get "description" (Products.public_row x) =
            Products.description x.1) ∧
    StronglySorted
      (λ x y, (Products.created_at y.1 ≤ Products.created_at x.1)%Z)
      joined ∧
    (NoDup (map Users.id (users db)) →
     map fst joined ≡ₚ
       filter (λ p, Exists (approved_owner p) (users db)) (products db)).
Proof.
  exists (merge_sort newer_first (join_approved db)).
  split; [done |]. split; [| split; [done | split]].
  - intros p u. rewrite merge_sort_Permutation.
    apply elem_of_join_approved.
  - apply (StronglySorted_merge_sort newer_first).
  - intros Hnd. rewrite merge_sort_Permutation.
    by rewrite join_approved_products.
Qed.

(** *** Registration and login *)

Lemma register_created req db resp db' :
  register accepts jwt_sign bcrypt_hash req db = (resp, db') →
  code resp = 201%Z →
  ∃ u, users db' = users db ++ [u] ∧ products db' = products db ∧
       created_as (field (body req) "role") u ∧
       Users.id u = users_id_seq db ∧
       resp = mkResponse 201
                (JsonUserToken (Users.returning u)
                   (signToken jwt_sign (Users.returning u))).
Proof.
  unfold register, try_catch. intros H Hc.
  destruct (negb (truthy (field (body req) "name")) || _ || _ || _);
    [run H; by simplify_eq |].
  case_bool_decide as Hrole; run H; [| by simplify_eq].
  unfold select_users_by_email in H. run H.
  destruct (negb (length _ =? 0)); run H; [by simplify_eq |].
  unfold hash in H.
  destruct (field (body req) "password") as [| | | |pw];
    run H; try by simplify_eq.
  unfold insert_user, not_null in H. run H.
  destruct (pg_text (field (body req) "name")) as [n|];
    run H; [| by simplify_eq].
  destruct (pg_text (field (body req) "email")) as [m|];
    run H; [| by simplify_eq].
  destruct (pg_text (field (body req) "role")) as [r|] eqn:Hr;
    run H; [| by simplify_eq].
  destruct (negb (takes _ _ _ && _)); run H; [by simplify_eq |].
  case_bool_decide; run H; [by simplify_eq |].
  simplify_eq. eexists. simpl. repeat split; try done.
  set_unfold in Hrole. unfold created_as.
  destruct Hrole as [Hrole | [Hrole | []]]; rewrite Hrole in Hr |- *;
    simpl in Hr; simplify_eq; simpl; auto.
Qed.

Lemma no_row_no_email (us : list Users.t) (m : string) :
  filter (λ u, Users.email u = m) us = [] → m ∉ map Users.email us.
Proof.
  intros Hf Hin. apply list_elem_of_fmap in Hin as (u & -> & Hu).
  assert (Hu' : u ∈ filter (λ v, Users.email v = Users.email u) us)
    by (by apply list_elem_of_filter).
  rewrite Hf in Hu'. by apply elem_of_nil in Hu'.
Qed.

Lemma register_failed req db resp db' :
  register accepts jwt_sign bcrypt_hash req db = (resp, db') →
  code resp ≠ 201%Z → db' = db.
Proof.
  unfold register, try_catch. intros H Hc.
  destruct (negb (truthy (field (body req) "name")) || _ || _ || _);
    [run H; by simplify_eq |].
  case_bool_decide as Hrole; run H; [| by simplify_eq].
  unfold select_users_by_email in H. run H.
  destruct (pg_text (field (body req) "email")) as [m|] eqn:Hm.
  2: { run H. unfold hash, insert_user, not_null in H.
       destruct (field (body req) "password") as [| | | |pw];
         run H; try by simplify_eq.
       destruct (pg_text (field (body req) "name")) as [n|];
         run H; [| by simplify_eq].
       rewrite Hm in H. run H. by simplify_eq. }
  destruct (filter (λ u, Users.email u = m) (users db)) as [|x xs] eqn:Hf;
    run H; [| by simplify_eq].
  unfold hash in H.
  destruct (field (body req) "password") as [| | | |pw];
    run H; try by simplify_eq.
  unfold insert_user, not_null in H. run H.
  destruct (pg_text (field (body req) "name")) as [n|];
    run H; [| by simplify_eq].
  rewrite Hm in H. run H.
  destruct (pg_text (field (body req) "role")) as [r|] eqn:Hr;
    run H; [| by simplify_eq].
  destruct (negb (takes _ _ _ && _)); run H; [by simplify_eq |].
  case_bool_decide as Hdup; run H; [| by simplify_eq].
  by destruct (no_row_no_email _ _ Hf).
Qed.

Lemma route_cases ms (h : Handler) req db resp db' :
  route ms h req db = (resp, db') →
  db' = db ∨ ∃ req', h req' db = (resp, db').
Proof.
  revert req. induction ms as [|m ms IH]; intros req H; simpl in H.
  - right. eauto.
  - destruct (m req); simplify_eq; eauto.
Qed.

Lemma login_reads req db :
  (login jwt_sign bcrypt_compare req db).2 = db.
Proof.
  unfold login, try_catch, select_users_by_email, compare.
  unfold bind, ret, throw. simpl.
  repeat (case_match; simplify_eq; simpl); done.
Qed.

Lemma create_product_users req db :
  users (create_product accepts req db).2 = users db.
Proof.
  unfold create_product, try_catch, user_id, insert_product, pg_int.
  destruct (negb _ || _ || _); [done |].
  unfold bind, ret, throw. simpl.
  repeat (case_match; simplify_eq; simpl); done.
Qed.

Lemma update_product_users req db :
  users (update_product_handler key_of accepts req db).2 = users db.
Proof.
  unfold update_product_handler, try_catch, user_id, select_owned_product,
    update_product, pg_int, pg_key.
  unfold bind, ret, throw. simpl.
  repeat (case_match; simplify_eq; simpl); done.
Qed.

Lemma delete_product_users req db :
  users (delete_product_handler key_of req db).2 = users db.
Proof.
  unfold delete_product_handler, try_catch, user_id, delete_product, pg_int,
    pg_key.
  unfold bind, ret, throw. simpl.
  repeat (case_match; simplify_eq; simpl); done.
Qed.

Lemma approve_user_ids req db :
  same_user_ids db (approve key_of req db).2.
Proof.
  unfold same_user_ids, approve, try_catch, approve_farmer, pg_key.
  unfold bind, ret, throw. simpl.
  destruct (key_of (params_id req)) as [i|]; simpl; [| done].
  destruct (length _ =? 0); simpl; rewrite map_map; apply map_ext;
    intros u; by case_decide.
Qed.

Lemma only_registration_creates e req db :
  e ≠ POST_auth_register → same_user_ids db (server e req db).2.
Proof.
  intros He. unfold same_user_ids.
  destruct e; try done; unfold app.
  - by rewrite login_reads.
  - destruct (route _ _ req db) as [resp db'] eqn:H.
    apply route_cases in H as [-> | [req' H]]; [done |].
    simpl. by rewrite <- (create_product_users req' db), H.
  - destruct (route _ _ req db) as [resp db'] eqn:H.
    apply route_cases in H as [-> | [req' H]]; [done |].
    simpl. by rewrite <- (update_product_users req' db), H.
  - destruct (route _ _ req db) as [resp db'] eqn:H.
    apply route_cases in H as [-> | [req' H]]; [done |].
    simpl. by rewrite <- (delete_product_users req' db), H.
  - destruct (route _ _ req db) as [resp db'] eqn:H.
    apply route_cases in H as [-> | [req' H]]; [done |].
    unfold list_pending_farmers, try_catch in H. run H. by simplify_eq.
  - destruct (route _ _ req db) as [resp db'] eqn:H.
    apply route_cases in H as [-> | [req' H]]; [done |].
    simpl. pose proof (approve_user_ids req' db) as Hi.
    by rewrite H in Hi.
Qed.

(** C4.  A registration that succeeds appends one user whose status
    follows from the role of the request: farmer gives pending, consumer
    gives approved.  No other request, and no registration that fails,
    adds a user, so every user created through the API starts that
    way. *)
Theorem registration_status_by_role e req db resp db' :
  server e req db = (resp, db') →
  (e = POST_auth_register → code resp = 201%Z →
   ∃ u, users db' = users db ++ [u] ∧
        created_as (field (body req) "role") u) ∧
  (e ≠ POST_auth_register ∨ code resp ≠ 201%Z → same_user_ids db db').
Proof.
  intros H. split.
  - intros -> Hc. unfold app in H.
    apply register_created in H as (u & Hu & _ & Hcr & _); eauto.
  - intros [He | Hc].
    + pose proof (only_registration_creates e req db He) as Hi.
      by rewrite H in Hi.
    + destruct (decide (e = POST_auth_register)) as [-> | He].
      * unfold app in H. apply register_failed in H as ->; done.
      * pose proof (only_registration_creates e req db He) as Hi.
        by rewrite H in Hi.
Qed.




(** *** Approval *)

(** The approve handler answers 200 for every stored farmer with the id
    of the request, whatever the status of that farmer, and then every
    such farmer is approved. *)
Lemma approve_any_status req db u i :
  key_of (params_id req) = Some i →
  u ∈ users db → farmer_with_id i u →
  (approve key_of req db).1 = json_ok ∧
  ∀ v, v ∈ users (approve key_of req db).2 → farmer_with_id i v →
       Users.status v = "approved".
Proof.
  intros Hkey Hu Hf. unfold approve, try_catch, approve_farmer, pg_key.
  rewrite Hkey. unfold bind, ret. simpl.
  assert (Hin : u ∈ filter (farmer_with_id i) (users db))
    by (by apply list_elem_of_filter).
  destruct (filter _ (users db)) as [|w ws];
    [by apply elem_of_nil in Hin |].
  simpl. split; [done |].
  intros v Hv Hfv. apply list_elem_of_fmap in Hv as (x & -> & _).
  destruct (decide (farmer_with_id i x)); [done |].
  contradiction.
Qed.

(** It answers 404 when the store reads the path id as a key and no
    stored user has that id and the role farmer, and then the store is
    left as it was. *)
Lemma approve_not_found req db i :
  key_of (params_id req) = Some i →
  (∀ u, u ∈ users db → ¬ farmer_with_id i u) →
  approve key_of req db =
    (json_error 404 "Farmer not found or already approved", db).
Proof.
  intros Hkey Hno. unfold approve, try_catch, approve_farmer, pg_key.
  rewrite Hkey. unfold bind, ret. simpl.
  rewrite (filter_none _ _ Hno). simpl. f_equal.
  assert (map (λ u, if decide (farmer_with_id i u)
                    then Users.set_status "approved" u else u) (users db)
          = users db) as ->; [| apply db_eta].
  rewrite <- (map_id (users db)) at 2. apply map_ext_in.
  intros u Hu%list_elem_of_In. by rewrite decide_False by auto.
Qed.

(** *** Login with a wrong password *)


(** The seeding script adds at most the admin, approved from the start. *)
Lemma seed_admin_approved db :
  users (seed_admin bcrypt_hash db).2 = users db ∨
  ∃ u, users (seed_admin bcrypt_hash db).2 = users db ++ [u] ∧
       Users.role u = "admin" ∧ Users.status u = "approved".
Proof.
  unfold seed_admin, hash. unfold bind, ret. simpl.
  case_bool_decide; [by left |]. right. by eexists.
Qed.

(** The listing follows an approval at once: the products of a farmer
    are in the next listing, whatever the status of that farmer was. *)
Lemma approval_shows_products req db p u i :
  key_of (params_id req) = Some i →
  p ∈ products db → u ∈ users db →
  Users.id u = Products.farmer_id p → farmer_with_id i u →
  (p, Users.set_status "approved" u) ∈
    merge_sort newer_first (join_approved (approve key_of req db).2).
Proof.
  intros Hkey Hp Hu Hown Hf. rewrite merge_sort_Permutation.
  apply elem_of_join_approved.
  unfold approve, try_catch, approve_farmer, pg_key. rewrite Hkey.
  unfold bind, ret. simpl.
  destruct (length _ =? 0); simpl.
  all: split; [done |]; split;
    [| by destruct Hf as [_ Hr]; repeat split].
  all: apply list_elem_of_fmap; exists u; split; [| done].
  all: by rewrite decide_True.
Qed.
End Properties.

(** ** The two places where the code departs from the specification *)

(** C3.  Approving a farmer who is already approved: Bob (id 2) is a
    farmer with status approved, the request carries the token of the
    admin, and the answer is 200 [{ ok: true }] with the store as it was,
    where the specification (and the handler's own error message) asks
    for 404.  The [WHERE] clause of the update does not look at the
    status. *)
Theorem approve_already_approved_answers_200 :
  Sample.u_bob ∈ users Sample.db ∧
  Users.role Sample.u_bob = "farmer" ∧
  Users.status Sample.u_bob = "approved" ∧
  Sample.server PATCH_admin_farmers_id_approve
    (Sample.request (Some "Bearer root") (Users.id Sample.u_bob) [])
    Sample.db = (json_ok, Sample.db).
Proof.
  split; [| by vm_compute]. unfold Sample.db. simpl. set_solver.
Qed.

(** C8.  Login with a password that is not a string (here the number 5):
    [bcrypt.compare] rejects the argument, so an email that is registered
    is answered 500 "Server error" while an email that is not registered
    is answered 401 "Invalid credentials"; the two answers tell the
    caller whether the email exists. *)
Theorem login_non_string_password_reveals_email :
  Sample.server POST_auth_login
    (Sample.request None 0
       [("email", JStr "bob@temo.local"); ("password", JNum 5)])
    Sample.db = (server_error, Sample.db) ∧
  Sample.server POST_auth_login
    (Sample.request None 0
       [("email", JStr "nobody@temo.local"); ("password", JNum 5)])
    Sample.db = (json_error 401 "Invalid credentials", Sample.db) ∧
  server_error ≠ json_error 401 "Invalid credentials".
Proof. by vm_compute. Qed.

(** C5, as the specification words it, for every path id: Bob is an
    approved farmer, the path id abc is the id of no stored product (the
    ids are numbers, and none of them is written abc), and the update and
    the delete under that path id are answered 500 "Server error", not
    404: the handlers hand the path id to the store as it is, and the
    store refuses to read it as a key. *)
Lemma path_id_abc_is_server_error :
  bearer Sample.verify Witness.bob_updates_abc Sample.bob ∧
  Claims.role Sample.bob = JStr "farmer" ∧
  Claims.status Sample.bob = JStr "approved" ∧
  params_id Witness.bob_updates_abc = "abc" ∧
  Forall (λ p, pretty (Products.id p) ≠ "abc") (products Sample.db) ∧
  Sample.server PUT_products_id Witness.bob_updates_abc Sample.db =
    (server_error, Sample.db) ∧
  Sample.server DELETE_products_id Witness.bob_updates_abc Sample.db =
    (server_error, Sample.db) ∧
  code server_error = 500%Z ∧
  server_error ≠ json_error 404 "Product not found".
Proof.
  split; [exists "bob"; by repeat split |].
  do 3 (split; [reflexivity |]).
  split; [by repeat constructor |].
  by vm_compute.
Qed.

(** ** The theorems at work on the sample store *)

Lemma pending_farmer_is_forbidden_witness :
  Sample.server POST_products Witness.alice_posts Sample.db =
    (json_error 403 "Farmer not approved by admin yet", Sample.db).
Proof.
  apply (pending_farmer_is_forbidden Sample.key_of Sample.accepts Sample.sign
           Sample.verify Sample.hash
           Sample.compare POST_products Witness.alice_posts Sample.db
           Sample.alice).
  - apply list_elem_of_here.
  - exists "alice". split; [reflexivity | split; [discriminate | reflexivity]].
  - reflexivity.
  - reflexivity.
Defined.

Lemma requireRole_total_witness :
  requireRole ["admin"] Witness.admin_lists =
    Respond (json_error 403 "Forbidden").
Proof.
  apply (requireRole_total ["admin"] Witness.admin_lists).
  left. reflexivity.
Defined.

Lemma create_rejects_missing_fields_witness :
  Sample.server POST_products Witness.bob_posts_free Sample.db =
    (json_error 400 "name, price, quantity are required", Sample.db).
Proof.
  apply (create_rejects_missing_fields Sample.key_of Sample.accepts Sample.sign
           Sample.verify Sample.hash
           Sample.compare Witness.bob_posts_free Sample.db Sample.bob).
  - exists "bob". split; [reflexivity | split; [discriminate | reflexivity]].
  - reflexivity.
  - reflexivity.
  - right. left. unfold falsy. vm_compute. auto 6.
Defined.

Lemma foreign_product_is_not_found_witness :
  Sample.server PUT_products_id Witness.bob_updates_apples Sample.db =
    (json_error 404 "Product not found", Sample.db).
Proof.
  pose proof (foreign_product_is_not_found Sample.key_of Sample.accepts
                Sample.sign Sample.verify Sample.hash Sample.compare
                PUT_products_id Witness.bob_updates_apples Sample.db
                Sample.bob 2) as H.
  change (Sample.key_of (params_id Witness.bob_updates_apples))
    with (Some 2%Z) in H.
  apply H.
  - apply list_elem_of_here.
  - exists "bob". split; [reflexivity | split; [discriminate | reflexivity]].
  - reflexivity.
  - reflexivity.
  - reflexivity.
  - intros p Hp Hid. apply list_elem_of_In in Hp. simpl in Hp, Hid.
    destruct Hp as [<- | [<- | [<- | []]]]; vm_compute in Hid |- *;
      congruence.
Defined.

Lemma update_merges_fields_witness :
  ∃ old new,
    old ∈ products Sample.db ∧ Products.id old = 1%Z ∧
    merged (body Witness.bob_updates_beets) old new ∧
    new ∈ products
            (Sample.server PUT_products_id Witness.bob_updates_beets
               Sample.db).2 ∧
    payload (Sample.server PUT_products_id Witness.bob_updates_beets
               Sample.db).1 = JsonObject (Products.row new).
Proof.
  destruct (update_merges_fields Sample.key_of Sample.accepts Sample.sign
              Sample.verify Sample.hash Sample.compare
              Witness.bob_updates_beets Sample.db
              (Sample.server PUT_products_id Witness.bob_updates_beets
                 Sample.db).1
              (Sample.server PUT_products_id Witness.bob_updates_beets
                 Sample.db).2)
    as (i & Hkey & _ & _ & Hrow & _).
  - reflexivity.
  - reflexivity.
  - vm_compute in Hkey. injection Hkey as <-. exact Hrow.
Defined.

Lemma registration_status_by_role_witness :
  ∃ u,
    users (Sample.server POST_auth_register Witness.carol_registers
             Sample.db).2 = users Sample.db ++ [u] ∧
    created_as (field (body Witness.carol_registers) "role") u.
Proof.
  apply (registration_status_by_role Sample.key_of Sample.accepts Sample.sign
           Sample.verify Sample.hash
           Sample.compare POST_auth_register Witness.carol_registers
           Sample.db
           (Sample.server POST_auth_register Witness.carol_registers
              Sample.db).1).
  - reflexivity.
  - reflexivity.
  - reflexivity.
Defined.


Lemma public_listing_is_live_join_witness :
  ∃ joined : list (Products.t * Users.t),
    Sample.server GET_products Witness.admin_lists Sample.db =
      (mkResponse 200 (JsonRows (map Products.public_row joined)),
       Sample.db) ∧
    map fst joined ≡ₚ [Sample.p_beets; Sample.p_kale].
Proof.
  destruct (public_listing_is_live_join Sample.key_of Sample.accepts Sample.sign
              Sample.verify
              Sample.hash Sample.compare Witness.admin_lists Sample.db)
    as (joined & Hresp & _ & _ & _ & Hperm).
  exists joined. split; [exact Hresp |].
  rewrite Hperm; [reflexivity |].
  apply (bool_decide_unpack _). vm_compute. exact I.
Defined.

(** ** Further properties of the application *)

Lemma substring_split n s :
  String.substring 0 n s +:+ String.substring n (String.length s - n) s = s.
Proof.
  revert n. induction s as [|a s IH]; intros [|n]; simpl; try done.
  - by rewrite substring_whole.
  - change (String a (String.substring 0 n s +:+
                      String.substring n (String.length s - n) s)
            = String a s).
    by rewrite IH.
Qed.

Lemma bearer_split hdr :
  String.prefix "Bearer " hdr = true →
  hdr = "Bearer " +:+ String.substring 7 (String.length hdr - 7) hdr.
Proof.
  intros H%String.prefix_correct. simpl in H.
  transitivity (String.substring 0 7 hdr +:+
                String.substring 7 (String.length hdr - 7) hdr).
  - symmetry. apply substring_split.
  - by rewrite H.
Qed.

Lemma append_inj_r s t t' : s +:+ t = s +:+ t' → t = t'.
Proof.
  induction s as [|a s IH]; intros H; [exact H |].
  change (String a (s +:+ t) = String a (s +:+ t')) in H.
  apply IH. by injection H.
Qed.

Lemma bearer_token_inj tok tok' :
  "Bearer " +:+ tok = "Bearer " +:+ tok' → tok = tok'.
Proof. apply append_inj_r. Qed.

Lemma bearer_header_inj tok tok' :
  Some ("Bearer " +:+ tok) = Some ("Bearer " +:+ tok') → tok = tok'.
Proof. intros H. apply bearer_token_inj. congruence. Qed.


Section Further.
Variable key_of : string → option Z.
Variable accepts : string → JSValue → bool.
Variable jwt_sign : Claims.t → string.
Variable jwt_verify : string → option Claims.t.
Variable bcrypt_hash : string → string.
Variable bcrypt_compare : string → string → bool.

Abbreviation server :=
  (app key_of accepts jwt_sign jwt_verify bcrypt_hash bcrypt_compare).

Lemma auth_with_token req tok :
  authorization req = Some ("Bearer " +:+ tok) → tok ≠ "" →
  auth jwt_verify req =
    match jwt_verify tok with
    | Some c => Next (authenticated req c)
    | None => Respond (json_error 401 "Invalid token")
    end.
Proof.
  intros Hhdr Hne. destruct (jwt_verify tok) as [c|] eqn:Hv.
  - apply auth_bearer. by exists tok.
  - unfold auth. rewrite Hhdr. simpl.
    rewrite Nat.sub_0_r, substring_whole.
    change ("" +:+ tok) with tok.
    replace (String.prefix "" tok) with true by (by destruct tok).
    destruct (String.eqb_spec tok ""); [done |]. by rewrite Hv.
Qed.

Lemma auth_without_token req :
  (∀ tok, tok ≠ "" → authorization req ≠ Some ("Bearer " +:+ tok)) →
  auth jwt_verify req = Respond (json_error 401 "Missing token").
Proof.
  intros Hno. unfold auth.
  destruct (String.prefix "Bearer " (default "" (authorization req)))
    eqn:Hp; [| done].
  destruct (String.eqb_spec
              (String.substring 7
                 (String.length (default "" (authorization req)) - 7)
                 (default "" (authorization req))) "") as [? | Hne];
    [done |].
  exfalso. apply bearer_split in Hp.
  destruct (authorization req) as [hdr|] eqn:Hhdr; [| done].
  simpl in *. apply (Hno _ Hne). by rewrite <- Hp.
Qed.

Lemma auth_cases req :
  (auth jwt_verify req = Respond (json_error 401 "Missing token") ∧
   ∀ tok, tok ≠ "" → authorization req ≠ Some ("Bearer " +:+ tok)) ∨
  (auth jwt_verify req = Respond (json_error 401 "Invalid token") ∧
   ∃ tok, authorization req = Some ("Bearer " +:+ tok) ∧ tok ≠ "" ∧
          jwt_verify tok = None) ∨
  (∃ c, bearer jwt_verify req c ∧
        auth jwt_verify req = Next (authenticated req c)).
Proof.
  destruct (authorization req) as [hdr|] eqn:Hhdr.
  - destruct (String.prefix "Bearer " hdr) eqn:Hp.
    + apply bearer_split in Hp.
      set (tok := String.substring 7 (String.length hdr - 7) hdr) in *.
      clearbody tok. subst hdr.
      destruct (decide (tok = "")) as [He | Hne].
      * assert (Hno : ∀ t, t ≠ "" →
                  authorization req ≠ Some ("Bearer " +:+ t)).
        { rewrite Hhdr. intros t Ht Heq%bearer_header_inj. congruence. }
        left. split; [by apply auth_without_token |]. by rewrite <- Hhdr.
      * rewrite (auth_with_token req tok Hhdr Hne).
        destruct (jwt_verify tok) as [c|] eqn:Hv.
        -- right. right. exists c. split; [by exists tok | done].
        -- right. left. split; [done |]. by exists tok.
    + assert (Hno : ∀ t, t ≠ "" →
                authorization req ≠ Some ("Bearer " +:+ t)).
      { rewrite Hhdr. intros t _ [= ->].
        apply not_true_iff_false in Hp. apply Hp.
        apply String.prefix_correct. simpl. by destruct t. }
      left. split; [by apply auth_without_token |]. by rewrite <- Hhdr.
  - left. split; [| done]. apply auth_without_token. by rewrite Hhdr.
Qed.

Lemma bearer_unique req c c' :
  bearer jwt_verify req c → bearer jwt_verify req c' → c = c'.
Proof.
  intros (t & Ht & _ & Hv) (t' & Ht' & _ & Hv').
  rewrite Ht in Ht'. apply bearer_header_inj in Ht'. congruence.
Qed.

(** X1.  [auth] hands a request on exactly when the header is
    ["Bearer "] followed by a token that is not empty and that verifies,
    and then the claims of the token are on the request.  Otherwise it
    answers 401: "Missing token" when there is no header, no such prefix
    or nothing after the prefix, "Invalid token" when the token does not
    verify.  It never throws. *)
Theorem auth_outcome req :
  (∀ req', auth jwt_verify req = Next req' ↔
     ∃ c, bearer jwt_verify req c ∧ req' = authenticated req c) ∧
  (auth jwt_verify req = Respond (json_error 401 "Missing token") ↔
     ∀ tok, tok ≠ "" → authorization req ≠ Some ("Bearer " +:+ tok)) ∧
  (auth jwt_verify req = Respond (json_error 401 "Invalid token") ↔
     ∃ tok, authorization req = Some ("Bearer " +:+ tok) ∧ tok ≠ "" ∧
            jwt_verify tok = None) ∧
  (∀ r, auth jwt_verify req = Respond r → code r = 401%Z) ∧
  (∀ e, auth jwt_verify req ≠ Raise e).
Proof.
  split; [| split; [| split; [| split]]].
  - intros req'. split.
    + intros H.
      destruct (auth_cases req) as [[Ha _] | [[Ha _] | (c & Hb & Ha)]];
        rewrite Ha in H; simplify_eq. eauto.
    + intros (c & Hb & ->). by apply auth_bearer.
  - split; [| apply auth_without_token].
    intros H.
    destruct (auth_cases req) as [[_ Hno] | [[Ha _] | (c & _ & Ha)]];
      [done | rewrite Ha in H; simplify_eq..].
  - split.
    + intros H.
      destruct (auth_cases req) as [[Ha _] | [[_ He] | (c & _ & Ha)]];
        [rewrite Ha in H; simplify_eq | done | rewrite Ha in H; simplify_eq].
    + intros (t & Ht & Hne & Hv).
      by rewrite (auth_with_token req t Ht Hne), Hv.
  - intros r H.
    destruct (auth_cases req) as [[Ha _] | [[Ha _] | (c & _ & Ha)]];
      rewrite Ha in H; by simplify_eq.
  - intros e H.
    destruct (auth_cases req) as [[Ha _] | [[Ha _] | (c & _ & Ha)]];
      rewrite Ha in H; by simplify_eq.
Qed.

Lemma auth_respond_no_bearer req r :
  auth jwt_verify req = Respond r → ∀ c, ¬ bearer jwt_verify req c.
Proof. intros H c Hb. apply auth_bearer in Hb. congruence. Qed.


(** The three ways through a route guarded by [requireRole("admin")]. *)
Lemma admin_route_cases (h : Handler) req db :
  (∃ msg, route [auth jwt_verify; requireRole ["admin"]] h req db =
            (json_error 401 msg, db) ∧
          (msg = "Missing token" ∨ msg = "Invalid token") ∧
          ∀ c, ¬ bearer jwt_verify req c) ∨
  (∃ c, bearer jwt_verify req c ∧ Claims.role c ≠ JStr "admin" ∧
     route [auth jwt_verify; requireRole ["admin"]] h req db =
       (json_error 403 "Forbidden", db)) ∨
  (∃ c, bearer jwt_verify req c ∧ Claims.role c = JStr "admin" ∧
     route [auth jwt_verify; requireRole ["admin"]] h req db =
       h (authenticated req c) db).
Proof.
  simpl.
  destruct (auth_cases req) as [[Ha _] | [[Ha _] | (c & Hb & Ha)]].
  - left. exists "Missing token". rewrite Ha.
    eauto using auth_respond_no_bearer.
  - left. exists "Invalid token". rewrite Ha.
    eauto using auth_respond_no_bearer.
  - right. rewrite Ha. unfold requireRole. simpl.
    destruct (decide (Claims.role c = JStr "admin")) as [Hr | Hr].
    + right. exists c. rewrite bool_decide_eq_true_2; [done |].
      rewrite Hr. left.
    + left. exists c. rewrite bool_decide_eq_false_2; [done |].
      intros Hin. apply list_elem_of_In in Hin. simpl in Hin. intuition.
Qed.

Lemma route_unauthenticated gs (h : Handler) req db :
  (∀ c, ¬ bearer jwt_verify req c) →
  ∃ msg, route (auth jwt_verify :: gs) h req db = (json_error 401 msg, db) ∧
         (msg = "Missing token" ∨ msg = "Invalid token").
Proof.
  intros Hno. simpl.
  destruct (auth_cases req) as [[Ha _] | [[Ha _] | (c & Hb & _)]].
  - exists "Missing token". rewrite Ha. auto.
  - exists "Invalid token". rewrite Ha. auto.
  - by destruct (Hno c).
Qed.

(** X2.  Every route behind [auth] answers 401 to a request that bears no
    valid token, whatever else the request holds, and leaves the store as
    it was. *)
Theorem protected_needs_token e req db :
  protected e → (∀ c, ¬ bearer jwt_verify req c) →
  ∃ msg, server e req db = (json_error 401 msg, db) ∧
         (msg = "Missing token" ∨ msg = "Invalid token").
Proof.
  intros He Hno. unfold protected in He.
  apply list_elem_of_In in He. simpl in He.
  destruct He as [<- | [<- | [<- | [<- | [<- | []]]]]]; unfold app;
    by apply route_unauthenticated.
Qed.

(** X3.  The two admin routes answer 403 "Forbidden" to a valid token
    whose role is not admin, a farmer or a consumer for instance, and
    leave the store as it was. *)
Theorem admin_routes_need_admin e req db c :
  e ∈ [GET_admin_farmers_pending; PATCH_admin_farmers_id_approve] →
  bearer jwt_verify req c → Claims.role c ≠ JStr "admin" →
  server e req db = (json_error 403 "Forbidden", db).
Proof.
  intros He Hb Hr. apply list_elem_of_In in He. simpl in He.
  destruct He as [<- | [<- | []]]; unfold app.
  - destruct (admin_route_cases list_pending_farmers req db)
      as [(m & _ & _ & Hno) | [(c' & _ & _ & H) | (c' & Hb' & Hr' & _)]].
    + by destruct (Hno c).
    + done.
    + by rewrite (bearer_unique req c c') in Hr.
  - destruct (admin_route_cases (approve key_of) req db)
      as [(m & _ & _ & Hno) | [(c' & _ & _ & H) | (c' & Hb' & Hr' & _)]].
    + by destruct (Hno c).
    + done.
    + by rewrite (bearer_unique req c c') in Hr.
Qed.

(** *** Status codes *)












(** *** Registration *)

(** X5.  A registration in which name, email, password or role is absent
    or falsy is answered 400 "Missing fields" and stores nothing. *)
Theorem register_missing_fields req db :
  falsy (field (body req) "name") ∨ falsy (field (body req) "email") ∨
    falsy (field (body req) "password") ∨ falsy (field (body req) "role") →
  server POST_auth_register req db = (json_error 400 "Missing fields", db).
Proof.
  intros Hf. unfold app, register, try_catch.
  assert (negb (truthy (field (body req) "name")) ||
          negb (truthy (field (body req) "email")) ||
          negb (truthy (field (body req) "password")) ||
          negb (truthy (field (body req) "role")) = true) as ->; [| done].
  destruct Hf as [H | [H | [H | H]]]; apply truthy_false in H; rewrite H;
    simpl; by rewrite ?orb_true_r.
Qed.

Lemma truthy_true v : truthy v = true ↔ ¬ falsy v.
Proof.
  rewrite <- truthy_false. destruct (truthy v); split; congruence.
Qed.

(** X6.  A registration with all four fields present but a role other
    than "consumer" or "farmer" is answered 400 "Invalid role" and stores
    nothing: no admin is made through the API. *)
Theorem register_invalid_role req db :
  ¬ falsy (field (body req) "name") → ¬ falsy (field (body req) "email") →
  ¬ falsy (field (body req) "password") →
  ¬ falsy (field (body req) "role") →
  field (body req) "role" ≠ JStr "consumer" →
  field (body req) "role" ≠ JStr "farmer" →
  server POST_auth_register req db = (json_error 400 "Invalid role", db).
Proof.
  intros Hn He Hp Hr Hc Hf. unfold app, register, try_catch.
  apply truthy_true in Hn, He, Hp, Hr. rewrite Hn, He, Hp, Hr. simpl.
  rewrite bool_decide_eq_false_2; [done |].
  intros Hin. apply list_elem_of_In in Hin. simpl in Hin. intuition.
Qed.

(** X7.  A registration with an email that a stored user already has is
    answered 409 "Email already registered" and stores nothing. *)
Theorem register_duplicate_email req db u r :
  ¬ falsy (field (body req) "name") →
  ¬ falsy (field (body req) "password") →
  field (body req) "role" = JStr r → r ∈ ["consumer"; "farmer"] →
  u ∈ users db → field (body req) "email" = JStr (Users.email u) →
  Users.email u ≠ "" →
  server POST_auth_register req db =
    (json_error 409 "Email already registered", db).
Proof.
  intros Hn Hp Hr Hin Hu He Hne. unfold app, register, try_catch.
  apply truthy_true in Hn, Hp. rewrite Hn, Hp, Hr, He. simpl.
  replace (negb (Users.email u =? "")%string) with true
    by (by destruct (String.eqb_spec (Users.email u) "")).
  replace (negb (r =? "")%string) with true.
  2: { apply list_elem_of_In in Hin. simpl in Hin.
       by destruct Hin as [<- | [<- | []]]. }
  simpl. rewrite bool_decide_eq_true_2.
  2: { apply list_elem_of_In in Hin. simpl in Hin.
       destruct Hin as [<- | [<- | []]]; [left | right; left]. }
  unfold bind, select_users_by_email. simpl.
  assert (Hf : u ∈ filter (λ v, Users.email v = Users.email u) (users db))
    by (by apply list_elem_of_filter).
  destruct (filter _ (users db)); [by apply elem_of_nil in Hf | done].
Qed.

(** X8.  A registration with a name, an email and a password that are
    strings and not empty, a role "consumer" or "farmer", a name and an
    email that their columns take (PostgreSQL refuses a text with the
    character U+0000, for instance, and the registration is then answered
    500) and an email that no stored user has succeeds: it answers 201
    with the new row and a token signed from it, and appends one user who
    has the next id, the fields of the request, the hash of the password
    (not the password) and the status of the role.  Nothing else in the
    store changes. *)
Theorem register_succeeds req db n m pw r :
  field (body req) "name" = JStr n → field (body req) "email" = JStr m →
  field (body req) "password" = JStr pw → field (body req) "role" = JStr r →
  n ≠ "" → m ≠ "" → pw ≠ "" → r ∈ ["consumer"; "farmer"] →
  accepts "users.name" (JStr n) = true →
  accepts "users.email" (JStr m) = true →
  m ∉ map Users.email (users db) →
  let u := Users.mk (users_id_seq db) n m (bcrypt_hash pw) r
             (if decide (r = "farmer") then "pending" else "approved")
             (now db) in
  server POST_auth_register req db =
    (mkResponse 201
       (JsonUserToken (Users.returning u) (jwt_sign (claims_of u))),
     mkDB (users db ++ [u]) (products db) (users_id_seq db + 1)
          (products_id_seq db) (now db + 1)).
Proof.
  intros Hn Hm Hpw Hr Hne Hme Hpe Hin Han Ham Hfresh u.
  unfold app, register, try_catch. rewrite Hn, Hm, Hpw, Hr. simpl.
  destruct (String.eqb_spec n ""); [done |].
  destruct (String.eqb_spec m ""); [done |].
  destruct (String.eqb_spec pw ""); [done |].
  assert (Hre : (r =? "")%string = false).
  { apply list_elem_of_In in Hin. simpl in Hin.
    by destruct Hin as [<- | [<- | []]]. }
  rewrite Hre. simpl. rewrite bool_decide_eq_true_2.
  2: { apply list_elem_of_In in Hin. simpl in Hin.
       destruct Hin as [<- | [<- | []]]; [left | right; left]. }
  unfold bind, select_users_by_email, insert_user, not_null, takes, bind,
    ret.
  simpl.
  rewrite (filter_none (λ v, Users.email v = m)).
  2: { intros v Hv Heq. apply Hfresh. apply list_elem_of_fmap. eauto. }
  simpl. rewrite Han, Ham. simpl.
  rewrite bool_decide_eq_false_2 by done.
  subst u. unfold signToken, claims_of. simpl.
  by destruct (decide (r = "farmer")) as [-> | Hrf];
    [rewrite bool_decide_eq_true_2 by done
    | rewrite bool_decide_eq_false_2 by congruence].
Qed.

(** *** What happens to the users table *)

Lemma register_created_fresh req db resp db' :
  register accepts jwt_sign bcrypt_hash req db = (resp, db') →
  code resp = 201%Z →
  ∃ u, users db' = users db ++ [u] ∧
       (Users.email u ∉ map Users.email (users db)) ∧
       created_as (field (body req) "role") u.
Proof.
  unfold register, try_catch. intros H Hc.
  destruct (negb (truthy (field (body req) "name")) || _ || _ || _);
    [run H; by simplify_eq |].
  case_bool_decide as Hrole; run H; [| by simplify_eq].
  unfold select_users_by_email in H. run H.
  destruct (negb (length _ =? 0)); run H; [by simplify_eq |].
  unfold hash in H.
  destruct (field (body req) "password") as [| | | |pw];
    run H; try by simplify_eq.
  unfold insert_user, not_null in H. run H.
  destruct (pg_text (field (body req) "name")) as [n|];
    run H; [| by simplify_eq].
  destruct (pg_text (field (body req) "email")) as [m|];
    run H; [| by simplify_eq].
  destruct (pg_text (field (body req) "role")) as [r|] eqn:Hr;
    run H; [| by simplify_eq].
  destruct (negb (takes _ _ _ && _)); run H; [by simplify_eq |].
  case_bool_decide as Hfresh; run H; [by simplify_eq |].
  simplify_eq. eexists. simpl. repeat split; try done.
  apply list_elem_of_In in Hrole. simpl in Hrole. unfold created_as.
  destruct Hrole as [Hrole | [Hrole | []]]; rewrite <- Hrole in Hr |- *;
    simpl in Hr; simplify_eq; simpl; auto.
Qed.

Lemma kept_all (us : list Users.t) : Forall2 kept_or_approved us us.
Proof. apply Forall_Forall2_diag, Forall_forall. intros u _. by left. Qed.

Lemma approve_users req db :
  Forall2 kept_or_approved (users db) (users (approve key_of req db).2).
Proof.
  unfold approve, try_catch, approve_farmer, pg_key.
  destruct (key_of (params_id req)) as [i|];
    unfold bind, ret, throw; simpl; [| apply kept_all].
  assert (Hf : Forall2 kept_or_approved (users db)
            (map (λ u, if decide (farmer_with_id i u)
                       then Users.set_status "approved" u else u)
                 (users db))).
  { apply Forall2_fmap_r, Forall_Forall2_diag, Forall_forall.
    intros u _. simpl. case_decide as Hd; [| by left].
    right. by destruct Hd. }
  by destruct (length _ =? 0).
Qed.

(** Every route keeps the stored users, at most approving farmers, and
    at most appends one user with an email that was not there. *)
Lemma users_evolve e req db :
  ∃ old' new,
    users (server e req db).2 = old' ++ new ∧
    Forall2 kept_or_approved (users db) old' ∧
    (new = [] ∨
     ∃ u, new = [u] ∧ (Users.email u ∉ map Users.email (users db)) ∧
          ((Users.role u = "farmer" ∧ Users.status u = "pending") ∨
           (Users.role u = "consumer" ∧ Users.status u = "approved"))).
Proof.
  assert (Hsame : ∀ d, users d = users db →
            ∃ old' new, users d = old' ++ new ∧
              Forall2 kept_or_approved (users db) old' ∧
              (new = [] ∨
               ∃ u, new = [u] ∧ (Users.email u ∉ map Users.email (users db)) ∧
                 ((Users.role u = "farmer" ∧ Users.status u = "pending") ∨
                  (Users.role u = "consumer" ∧
                   Users.status u = "approved")))).
  { intros d Hd. exists (users db), []. rewrite app_nil_r.
    split; [done |]. split; [apply kept_all | by left]. }
  destruct e; unfold app.
  - by apply Hsame.
  - destruct (register accepts jwt_sign bcrypt_hash req db) as [resp db'] eqn:H.
    destruct (decide (code resp = 201%Z)) as [Hc | Hc].
    + apply register_created_fresh in H as (u & Hu & Hfresh & Hcr); [| done].
      exists (users db), [u]. split; [done |]. split; [apply kept_all |].
      right. exists u. split; [done |]. split; [done |].
      destruct Hcr as [(_ & ? & ?) | (_ & ? & ?)]; auto.
    + apply register_failed in H as ->; [| done]. by apply Hsame.
  - apply Hsame. by rewrite login_reads.
  - by apply Hsame.
  - destruct (route _ _ req db) as [resp db'] eqn:H.
    apply route_cases in H as [-> | [req' H]]; [by apply Hsame |].
    apply Hsame. simpl. by rewrite <- (create_product_users accepts req' db), H.
  - destruct (route _ _ req db) as [resp db'] eqn:H.
    apply route_cases in H as [-> | [req' H]]; [by apply Hsame |].
    apply Hsame. simpl.
    by rewrite <- (update_product_users key_of accepts req' db), H.
  - destruct (route _ _ req db) as [resp db'] eqn:H.
    apply route_cases in H as [-> | [req' H]]; [by apply Hsame |].
    apply Hsame. simpl. by rewrite <- (delete_product_users key_of req' db), H.
  - destruct (route _ _ req db) as [resp db'] eqn:H.
    apply route_cases in H as [-> | [req' H]]; [by apply Hsame |].
    apply Hsame. unfold list_pending_farmers, try_catch in H. run H.
    by simplify_eq.
  - destruct (route _ _ req db) as [resp db'] eqn:H.
    apply route_cases in H as [-> | [req' H]]; [by apply Hsame |].
    exists (users db'), []. rewrite app_nil_r. split; [done |].
    split; [| by left].
    pose proof (approve_users req' db) as Ha. by rewrite H in Ha.
Qed.

Lemma kept_or_approved_email us us' :
  Forall2 kept_or_approved us us' →
  map Users.email us' = map Users.email us.
Proof.
  induction 1 as [|u u' us us' [-> | [_ ->]] _ IH]; simpl; by f_equal.
Qed.

(** X9.  No request makes two users share an email: if the emails of the
    stored users are distinct before a request, they are distinct after
    it, whatever the route and the request. *)
Theorem emails_stay_unique e req db :
  NoDup (map Users.email (users db)) →
  NoDup (map Users.email (users (server e req db).2)).
Proof.
  intros Hnd.
  destruct (users_evolve e req db) as (old' & new & -> & Hold & Hnew).
  rewrite map_app, (kept_or_approved_email _ _ Hold).
  destruct Hnew as [-> | (u & -> & Hfresh & _)]; simpl.
  - by rewrite app_nil_r.
  - apply NoDup_app. split; [done |]. split.
    + intros x Hx Hx'. apply list_elem_of_In in Hx'. simpl in Hx'.
      destruct Hx' as [<- | []]. done.
    + apply NoDup_singleton.
Qed.

(** X10.  Every route keeps the rule of the statuses: if every stored
    user is approved or is a farmer still pending, the same holds after
    the request. *)
Theorem statuses_stay_ok e req db :
  Forall status_ok (users db) →
  Forall status_ok (users (server e req db).2).
Proof.
  intros Hok.
  destruct (users_evolve e req db) as (old' & new & -> & Hold & Hnew).
  apply Forall_app. split.
  - clear Hnew. induction Hold as [|u u' us us' Hk _ IH]; [done |].
    apply Forall_cons in Hok as [Hu Hus]. constructor; [| by apply IH].
    destruct Hk as [-> | [_ ->]]; [done | by left].
  - destruct Hnew as [-> | (u & -> & _ & Hu)]; [done |].
    constructor; [| done]. unfold status_ok. intuition.
Qed.

(** X11.  No route removes a stored user or changes one, but for a
    farmer whose status becomes approved: after every request the users
    table is the old one, row by row unchanged or approved, followed by
    the users the request added.  So an approved user is never set back
    and no name, email, password hash or role is ever rewritten. *)
Theorem users_are_kept_or_approved e req db :
  ∃ old' new,
    users (server e req db).2 = old' ++ new ∧
    Forall2 kept_or_approved (users db) old' ∧
    Forall2 (λ u u', Users.id u' = Users.id u ∧
                     Users.email u' = Users.email u ∧
                     Users.password_hash u' = Users.password_hash u ∧
                     Users.role u' = Users.role u ∧
                     (Users.status u = "approved" →
                      Users.status u' = "approved"))
            (users db) old'.
Proof.
  destruct (users_evolve e req db) as (old' & new & Heq & Hold & _).
  exists old', new. split; [done |]. split; [done |].
  eapply Forall2_impl; [exact Hold |].
  intros u u' [-> | [_ ->]]; by repeat split.
Qed.

(** *** Login and the token *)

Lemma filter_unique_key {A B} `{EqDecision B} (f : A → B) (l : list A) u :
  NoDup (map f l) → u ∈ l → filter (λ v, f v = f u) l = [u].
Proof.
  induction l as [|a l IH]; intros Hnd Hu; [by apply elem_of_nil in Hu |].
  simpl in Hnd. apply NoDup_cons in Hnd as [Ha Hnd].
  apply elem_of_cons in Hu as [-> | Hu].
  - rewrite filter_cons_True by done. f_equal.
    apply filter_none. intros v Hv Heq. apply Ha. rewrite <- Heq.
    apply list_elem_of_fmap. eauto.
  - rewrite filter_cons_False; [by apply IH |].
    intros Heq. apply Ha. rewrite Heq. apply list_elem_of_fmap. eauto.
Qed.

(** X12.  With distinct emails in the store, a login with the email of a
    stored user and a password that [bcrypt.compare] accepts against the
    stored hash is answered 200 with the row of that user without
    [password_hash] and a token signed from the id, role, status and name
    of the row.  The status plays no part: a farmer who is still pending
    can log in.  The store is left as it was. *)
Theorem login_succeeds req db u pw :
  NoDup (map Users.email (users db)) → u ∈ users db →
  field (body req) "email" = JStr (Users.email u) →
  field (body req) "password" = JStr pw →
  bcrypt_compare pw (Users.password_hash u) = true →
  server POST_auth_login req db =
    (mkResponse 200
       (JsonUserToken (omit "password_hash" (Users.row u))
                      (jwt_sign (claims_of u))), db).
Proof.
  intros Hnd Hu He Hp Hok.
  unfold app, login, try_catch, select_users_by_email, bind, ret.
  rewrite He, Hp. simpl.
  rewrite (filter_unique_key Users.email (users db) u Hnd Hu). simpl.
  by rewrite Hok.
Qed.

(** X13.  When a token signed from a stored user verifies to the claims
    it was signed from (and is not empty), a successful login is the
    login of the first stored user with the email of the request, whose
    stored hash [bcrypt.compare] accepts for the password of the request:
    the answer carries the row of that user without [password_hash] and
    the token signed from that row, and this token, sent as a bearer
    header, passes [auth] and puts on the request the id, role, status
    and name that this user had in the store at the time of the login. *)
Theorem login_token_authenticates req db resp db' :
  (∀ u, u ∈ users db →
        jwt_verify (jwt_sign (claims_of u)) = Some (claims_of u) ∧
        jwt_sign (claims_of u) ≠ "") →
  server POST_auth_login req db = (resp, db') → code resp = 200%Z →
  ∃ u us pw,
    u ∈ users db ∧
    pg_text (field (body req) "email") = Some (Users.email u) ∧
    filter (λ v, Users.email v = Users.email u) (users db) = u :: us ∧
    field (body req) "password" = JStr pw ∧
    bcrypt_compare pw (Users.password_hash u) = true ∧
    payload resp = JsonUserToken (omit "password_hash" (Users.row u))
                                 (jwt_sign (claims_of u)) ∧
    ∀ req2,
      authorization req2 = Some ("Bearer " +:+ jwt_sign (claims_of u)) →
      auth jwt_verify req2 = Next (authenticated req2 (claims_of u)).
Proof.
  intros Hrt H Hc. unfold app, login, try_catch, select_users_by_email in H.
  run H.
  destruct (pg_text (field (body req) "email")) as [m|] eqn:Hm;
    [| by simplify_eq].
  destruct (filter _ (users db)) as [|u us] eqn:Hf; [by simplify_eq |].
  assert (Hu : u ∈ filter (λ u, Users.email u = m) (users db))
    by (rewrite Hf; left).
  apply list_elem_of_filter in Hu as [<- Hu].
  unfold compare in H.
  destruct (field (body req) "password") as [| | | |pw];
    run H; try by simplify_eq.
  destruct (bcrypt_compare pw (Users.password_hash u)) eqn:Hok;
    run H; [| by simplify_eq].
  simplify_eq. exists u, us, pw. repeat (split; [done |]).
  intros req2 Hhdr. apply auth_bearer.
  exists (jwt_sign (claims_of u)).
  destruct (Hrt u Hu) as [Hv Hne]. by repeat split.
Qed.

(** *** Creating and listing products *)

Lemma pg_param_defined v : v ≠ JUndefined → pg_param v = v.
Proof. by destruct v. Qed.

Lemma not_falsy_defined v : ¬ falsy v → v ≠ JUndefined.
Proof. intros H ->. apply H. by left. Qed.

Lemma js_or_null_defined v : js_or v JNull ≠ JUndefined.
Proof. unfold js_or. by destruct v as [| |[]|n|s]; simpl; try case_match. Qed.

Lemma create_product_run req db c b :
  user req = Some c → Claims.id c = JNum b →
  ¬ falsy (field (body req) "name") → ¬ falsy (field (body req) "price") →
  ¬ falsy (field (body req) "quantity") →
  storable accepts (body req) = true →
  create_product accepts req db =
    (mkResponse 201 (JsonObject (Products.row (new_product db b (body req)))),
     mkDB (users db) (products db ++ [new_product db b (body req)])
          (users_id_seq db) (products_id_seq db + 1) (now db + 1)).
Proof.
  intros Hu Hid Hn Hp Hq Hst.
  unfold create_product, try_catch, user_id, insert_product, new_product.
  unfold storable in Hst.
  rewrite (proj2 (truthy_true _) Hn), (proj2 (truthy_true _) Hp),
    (proj2 (truthy_true _) Hq), Hu, Hid.
  simpl. unfold bind, ret. simpl. rewrite Hst. simpl.
  by rewrite !pg_param_defined
    by auto using not_falsy_defined, js_or_null_defined.
Qed.

(** A creation that is answered 201 has stored the product of the
    request and answers with its row. *)
Lemma create_product_created req db resp db' c b :
  user req = Some c → Claims.id c = JNum b →
  create_product accepts req db = (resp, db') → code resp = 201%Z →
  resp = mkResponse 201
           (JsonObject (Products.row (new_product db b (body req)))) ∧
  db' = mkDB (users db) (products db ++ [new_product db b (body req)])
          (users_id_seq db) (products_id_seq db + 1) (now db + 1).
Proof.
  intros Hu Hid H Hc.
  destruct (truthy (field (body req) "name")) eqn:Hn.
  2: { unfold create_product, try_catch in H. rewrite Hn in H. run H.
       by simplify_eq. }
  destruct (truthy (field (body req) "price")) eqn:Hp.
  2: { unfold create_product, try_catch in H. rewrite Hn, Hp in H. run H.
       by simplify_eq. }
  destruct (truthy (field (body req) "quantity")) eqn:Hq.
  2: { unfold create_product, try_catch in H. rewrite Hn, Hp, Hq in H.
       run H. by simplify_eq. }
  apply truthy_true in Hn, Hp, Hq.
  destruct (storable accepts (body req)) eqn:Hst.
  - rewrite (create_product_run req db c b) in H by done.
    by simplify_eq.
  - unfold create_product, try_catch, user_id, insert_product in H.
    unfold storable in Hst.
    rewrite (proj2 (truthy_true _) Hn), (proj2 (truthy_true _) Hp),
      (proj2 (truthy_true _) Hq), Hu, Hid in H.
    run H. rewrite Hst in H. run H. by simplify_eq.
Qed.

(** X14.  An approved farmer who posts a product with a name, a price and
    a quantity that are not falsy and values that the columns of the
    table take (a price that is no number is refused by a numeric column,
    for instance, and the creation is then answered 500 with nothing
    stored) gets 201 with the stored row.  The row is appended to the
    products with the next id, the id of the token as owner and the
    fields of the body; an image or a description that is absent or falsy
    (the empty string too) is stored as null.  The users and the other
    products are untouched. *)
Theorem create_succeeds req db c b :
  bearer jwt_verify req c →
  Claims.role c = JStr "farmer" → Claims.status c = JStr "approved" →
  Claims.id c = JNum b →
  ¬ falsy (field (body req) "name") → ¬ falsy (field (body req) "price") →
  ¬ falsy (field (body req) "quantity") →
  storable accepts (body req) = true →
  let p := new_product db b (body req) in
  server POST_products req db =
    (mkResponse 201 (JsonObject (Products.row p)),
     mkDB (users db) (products db ++ [p])
          (users_id_seq db) (products_id_seq db + 1) (now db + 1)) ∧
  Products.farmer_id p = b ∧
  (falsy (field (body req) "image_url") → Products.image_url p = JNull) ∧
  (falsy (field (body req) "description") →
   Products.description p = JNull).
Proof.
  intros Hb Hr Hs Hid Hn Hp Hq Hst p. split; [| split; [done | split]].
  - unfold app. rewrite (approved_farmer_reaches _ _ _ c) by done.
    by apply (create_product_run (authenticated req c) db c b).
  - intros Hf%truthy_false. subst p. unfold new_product, js_or. simpl.
    by rewrite Hf.
  - intros Hf%truthy_false. subst p. unfold new_product, js_or. simpl.
    by rewrite Hf.
Qed.

Lemma list_products_run req db :
  list_products req db =
    (mkResponse 200
       (JsonRows (map Products.public_row
                      (merge_sort newer_first (join_approved db)))), db).
Proof. done. Qed.

(** X15.  When the creation of a product by an approved farmer is
    answered 201, the answer is the row of the product of the request
    and that product is in the next public listing, with the name of the
    farmer as [farmer_name], when the store has that farmer as
    approved. *)
Theorem created_product_is_listed req req' db resp db' c u :
  bearer jwt_verify req c →
  Claims.role c = JStr "farmer" → Claims.status c = JStr "approved" →
  Claims.id c = JNum (Users.id u) →
  u ∈ users db → Users.role u = "farmer" → Users.status u = "approved" →
  server POST_products req db = (resp, db') → code resp = 201%Z →
  ∃ rows,
    payload resp =
      JsonObject (Products.row (new_product db (Users.id u) (body req))) ∧
    (server GET_products req' db').1 = mkResponse 200 (JsonRows rows) ∧
    Products.public_row (new_product db (Users.id u) (body req), u) ∈ rows ∧
    get "farmer_name"
      (Products.public_row (new_product db (Users.id u) (body req), u)) =
      JStr (Users.name u).
Proof.
  intros Hb Hr Hs Hid Hu Hur Hus H Hc.
  unfold app in H. rewrite (approved_farmer_reaches _ _ _ c) in H by done.
  apply (create_product_created _ _ _ _ c (Users.id u)) in H as [-> ->];
    [| done..].
  unfold app. rewrite list_products_run. simpl.
  eexists. split; [done |]. split; [done |]. split; [| done].
  apply list_elem_of_fmap. eexists. split; [done |].
  rewrite merge_sort_Permutation. apply elem_of_join_approved. simpl.
  split; [apply elem_of_app; right; left |]. by split.
Qed.

(** *** Deleting products *)

(** The guards decide on the request alone: the same way for every
    store. *)
Lemma farmer_route_uniform (h : Handler) req :
  (∃ r, ∀ db, route [auth jwt_verify; requireApprovedFarmer] h req db =
                (r, db)) ∨
  (∃ c, bearer jwt_verify req c ∧
     Claims.role c = JStr "farmer" ∧ Claims.status c = JStr "approved" ∧
     ∀ db, route [auth jwt_verify; requireApprovedFarmer] h req db =
             h (authenticated req c) db).
Proof.
  simpl.
  destruct (auth_cases req) as [[Ha _] | [[Ha _] | (c & Hb & Ha)]];
    rewrite Ha; [left; by eexists.. |].
  destruct (decide (Claims.role c = JStr "farmer")) as [Hr | Hr].
  - destruct (decide (Claims.status c = JStr "approved")) as [Hs | Hs].
    + right. exists c.
      by rewrite (guard_approved (authenticated req c) c).
    + left. rewrite (guard_pending (authenticated req c) c) by done.
      by eexists.
  - left. rewrite (guard_not_farmer (authenticated req c) c) by done.
    by eexists.
Qed.

Lemma delete_run req db c b i :
  user req = Some c → Claims.id c = JNum b →
  key_of (params_id req) = Some i →
  delete_product_handler key_of req db =
    (if (length (filter (owned_by i (Some b)) (products db)) =? 0)%nat
     then json_error 404 "Product not found" else json_ok,
     mkDB (users db)
          (filter (λ p, ¬ owned_by i (Some b) p) (products db))
          (users_id_seq db) (products_id_seq db) (now db)).
Proof.
  intros Hu Hid Hkey. unfold delete_product_handler, try_catch, user_id,
    delete_product, pg_key. rewrite Hu, Hkey. simpl. rewrite Hid. simpl.
  unfold bind, ret. simpl. by destruct (length _ =? 0)%nat.
Qed.

(** A path id that the store does not read as a key makes the statement
    fail before it touches a row. *)
Lemma delete_rejected req db c :
  user req = Some c → key_of (params_id req) = None →
  delete_product_handler key_of req db = (server_error, db).
Proof.
  intros Hu Hkey. unfold delete_product_handler, try_catch, user_id,
    delete_product, pg_key. by rewrite Hu, Hkey.
Qed.

(** X16.  An approved farmer who deletes a product of their own gets 200
    [{ ok: true }]; afterwards the products are the former ones without
    those that have the id of the request and that owner, so every other
    product is still there, and the users are untouched. *)
Theorem delete_succeeds req db c b p :
  bearer jwt_verify req c →
  Claims.role c = JStr "farmer" → Claims.status c = JStr "approved" →
  Claims.id c = JNum b →
  p ∈ products db → key_of (params_id req) = Some (Products.id p) →
  Products.farmer_id p = b →
  ∃ db', server DELETE_products_id req db = (json_ok, db') ∧
    users db' = users db ∧
    ∀ q, q ∈ products db' ↔
         q ∈ products db ∧
         ¬ (Products.id q = Products.id p ∧ Products.farmer_id q = b).
Proof.
  intros Hb Hr Hs Hid Hp Hpi Hpo. unfold app.
  rewrite (approved_farmer_reaches _ _ _ c) by done.
  rewrite (delete_run (authenticated req c) db c b (Products.id p))
    by done.
  simpl.
  assert (Hin : p ∈ filter (owned_by (Products.id p) (Some b))
                      (products db)).
  { apply list_elem_of_filter. split; [| done]. split; congruence. }
  destruct (filter (owned_by _ _) (products db)) as [|x xs];
    [by apply elem_of_nil in Hin |].
  eexists. split; [done |]. split; [done |]. simpl.
  intros q. rewrite list_elem_of_filter. unfold owned_by.
  split; intros [H1 H2]; split; try done; intros [? ?]; apply H1 || apply H2;
    split; congruence.
Qed.

(** X17.  Deleting is final: whatever a delete request of an approved
    farmer did, the same request sent again changes nothing and is
    answered 404 "Product not found" when the store reads the path id as
    a key.  When it does not (a path id such as abc, or a number beyond
    the range of the key), the statement fails before it touches a row
    and the request sent again is answered 500 "Server error", as the
    first was. *)
Theorem delete_again_is_not_found req db c b :
  bearer jwt_verify req c →
  Claims.role c = JStr "farmer" → Claims.status c = JStr "approved" →
  Claims.id c = JNum b →
  server DELETE_products_id req (server DELETE_products_id req db).2 =
    (match key_of (params_id req) with
     | Some _ => json_error 404 "Product not found"
     | None => server_error
     end,
     (server DELETE_products_id req db).2) ∧
  (key_of (params_id req) = None →
   server DELETE_products_id req db = (server_error, db)).
Proof.
  intros Hb Hr Hs Hid. unfold app.
  rewrite !(approved_farmer_reaches _ _ _ c) by done.
  destruct (key_of (params_id req)) as [i|] eqn:Hkey.
  - split; [| done].
    rewrite !(delete_run (authenticated req c) _ c b i) by done. simpl.
    rewrite (filter_none (owned_by i (Some b))).
    2: { by intros q [Hq _]%list_elem_of_filter. }
    simpl. f_equal. f_equal. apply filter_all.
    by intros q [Hq _]%list_elem_of_filter.
  - by rewrite !(delete_rejected (authenticated req c) _ c).
Qed.

(** *** Updating products *)

Lemma update_run req db c b i :
  user req = Some c → Claims.id c = JNum b →
  key_of (params_id req) = Some i →
  update_product_handler key_of accepts req db =
    if (length (filter (owned_by i (Some b)) (products db)) =? 0)%nat
    then (json_error 404 "Product not found", db)
    else if updatable accepts (body req)
    then
      (mkResponse 200
         match filter (λ p, Products.id p = i) (products db) with
         | q :: _ => JsonObject (Products.row (update_row (body req) i q))
         | [] => JsonUndefined
         end,
       mkDB (users db) (map (update_row (body req) i) (products db))
            (users_id_seq db) (products_id_seq db) (now db))
    else (server_error, db).
Proof.
  intros Hu Hid Hkey. unfold update_product_handler, try_catch, user_id,
    select_owned_product, update_product, pg_key, updatable.
  rewrite Hu, Hkey. simpl.
  rewrite Hid. simpl. unfold bind, ret, throw. simpl.
  rewrite length_map. destruct (length _ =? 0)%nat; [done |].
  simpl. destruct (takes _ _ _ && _ && _ && _ && _); simpl; [| done].
  by destruct (filter (λ p, Products.id p = i) _).
Qed.

Lemma update_rejected req c :
  user req = Some c → key_of (params_id req) = None →
  ∀ d, update_product_handler key_of accepts req d = (server_error, d).
Proof.
  intros Hu Hkey d. unfold update_product_handler, try_catch, user_id,
    select_owned_product, pg_key. by rewrite Hu, Hkey.
Qed.

(** With claims whose id is not a number the update touches nothing. *)
Lemma update_without_owner req c :
  user req = Some c → (∀ b, Claims.id c ≠ JNum b) →
  ∃ r, ∀ d, update_product_handler key_of accepts req d = (r, d).
Proof.
  intros Hu Hid.
  destruct (key_of (params_id req)) as [i|] eqn:Hkey.
  2: { eexists. by apply update_rejected with c. }
  unfold update_product_handler, try_catch, user_id,
    select_owned_product, pg_key. rewrite Hu, Hkey. simpl.
  destruct (Claims.id c) as [| | |b|] eqn:Hc; [| | | by destruct (Hid b) |];
    simpl; unfold bind, ret, throw; simpl; eexists; intros d;
    try reflexivity.
  all: rewrite (filter_none (owned_by i None))
         by (by intros p _ [_ ?]); reflexivity.
Qed.

Lemma coalesce_idem v x : coalesce v (coalesce v x) = coalesce v x.
Proof. by destruct v. Qed.

Lemma update_row_idem b id p :
  update_row b id (update_row b id p) = update_row b id p.
Proof.
  unfold update_row. destruct (decide (Products.id p = id)) as [Hp | Hp].
  - rewrite decide_True by done. unfold merge_body, merge_fields. simpl.
    by rewrite !coalesce_idem.
  - by rewrite decide_False.
Qed.

Lemma update_row_keys b id p :
  Products.id (update_row b id p) = Products.id p ∧
  Products.farmer_id (update_row b id p) = Products.farmer_id p.
Proof. unfold update_row. by case_decide. Qed.

Lemma filter_update_row (P : Products.t → Prop) `{∀ p, Decision (P p)}
    b id (l : list Products.t) :
  (∀ p, P (update_row b id p) ↔ P p) →
  filter P (map (update_row b id) l) = map (update_row b id) (filter P l).
Proof.
  intros HP. induction l as [|p l IH]; [done |]. simpl.
  destruct (decide (P p)) as [Hp | Hp].
  - rewrite !filter_cons_True by (done || by apply HP). simpl. by f_equal.
  - rewrite !filter_cons_False by (done || by rewrite HP). done.
Qed.

Lemma update_handler_idem req db c :
  user req = Some c →
  update_product_handler key_of accepts req
      (update_product_handler key_of accepts req db).2 =
    update_product_handler key_of accepts req db.
Proof.
  intros Hu. destruct (Claims.id c) as [| | |b|] eqn:Hid.
  1-3, 5: destruct (update_without_owner req c Hu) as [r Hr];
    [congruence | by rewrite !Hr].
  destruct (key_of (params_id req)) as [i|] eqn:Hkey.
  2: { by rewrite !(update_rejected req c Hu Hkey). }
  rewrite (update_run req db c b i) by done.
  destruct (length (filter (owned_by i (Some b)) (products db)) =? 0)%nat
    eqn:Hlen.
  - simpl. by rewrite (update_run req db c b i), Hlen.
  - destruct (updatable accepts (body req)) eqn:Hupd.
    2: { simpl. by rewrite (update_run req db c b i), Hlen, Hupd. }
    simpl. rewrite (update_run req _ c b i) by done. simpl.
    rewrite (filter_update_row (owned_by i (Some b))).
    2: { intros p. unfold owned_by.
         destruct (update_row_keys (body req) i p) as [-> ->].
         done. }
    rewrite length_map, Hlen, Hupd.
    rewrite (filter_update_row (λ p, Products.id p = i)).
    2: { intros p.
         by destruct (update_row_keys (body req) i p) as [-> _]. }
    rewrite map_map.
    rewrite (map_ext
               (λ x, update_row (body req) i (update_row (body req) i x))
               (update_row (body req) i))
      by (intros p; apply update_row_idem).
    destruct (filter (λ p, Products.id p = i) (products db));
      simpl; [done |].
    by rewrite update_row_idem.
Qed.

(** X19.  Updating is idempotent: for every request and every store, the
    same update request sent a second time gets the same answer as the
    first and leaves the store as the first left it. *)
Theorem update_twice_is_update_once req db :
  server PUT_products_id req (server PUT_products_id req db).2 =
    server PUT_products_id req db.
Proof.
  unfold app.
  destruct (farmer_route_uniform (update_product_handler key_of accepts) req)
    as [[r Hr] | (c & _ & _ & _ & Hh)].
  - by rewrite !Hr.
  - rewrite !Hh. by apply update_handler_idem with c.
Qed.

Lemma coalesce_not_provided v x : ¬ provided v → coalesce v x = x.
Proof. apply coalesce_spec. Qed.

Lemma takes_not_provided column v :
  ¬ provided v → takes accepts column v = true.
Proof.
  intros Hv. unfold takes. destruct v; simpl; try done.
  all: exfalso; apply Hv; by unfold provided.
Qed.

(** X20.  An update whose body provides none of the five fields (each is
    absent or null, as with an empty body) changes nothing: the owner
    gets 200 with the row as it is stored. *)
Theorem update_with_nothing_provided req db c b p :
  bearer jwt_verify req c →
  Claims.role c = JStr "farmer" → Claims.status c = JStr "approved" →
  Claims.id c = JNum b →
  (∀ k col, (k, col) ∈ columns → ¬ provided (field (body req) k)) →
  NoDup (map Products.id (products db)) →
  p ∈ products db → key_of (params_id req) = Some (Products.id p) →
  Products.farmer_id p = b →
  server PUT_products_id req db =
    (mkResponse 200 (JsonObject (Products.row p)), db).
Proof.
  intros Hb Hr Hs Hid Hnone Hnd Hp Hpi Hpo. unfold app.
  rewrite (approved_farmer_reaches _ _ _ c) by done.
  rewrite (update_run (authenticated req c) db c b (Products.id p))
    by done.
  simpl.
  assert (Hin : p ∈ filter (owned_by (Products.id p) (Some b))
                      (products db)).
  { apply list_elem_of_filter. split; [| done]. split; congruence. }
  destruct (filter (owned_by _ _) (products db)) as [|x xs];
    [by apply elem_of_nil in Hin |]. simpl.
  assert (Hn1 : ¬ provided (field (body req) "name"))
    by (apply (Hnone "name" Products.name), list_elem_of_In;
        simpl; auto 10).
  assert (Hn2 : ¬ provided (field (body req) "price"))
    by (apply (Hnone "price" Products.price), list_elem_of_In;
        simpl; auto 10).
  assert (Hn3 : ¬ provided (field (body req) "quantity"))
    by (apply (Hnone "quantity" Products.quantity), list_elem_of_In;
        simpl; auto 10).
  assert (Hn4 : ¬ provided (field (body req) "image_url"))
    by (apply (Hnone "image_url" Products.image_url), list_elem_of_In;
        simpl; auto 10).
  assert (Hn5 : ¬ provided (field (body req) "description"))
    by (apply (Hnone "description" Products.description),
          list_elem_of_In; simpl; auto 10).
  unfold updatable. rewrite !takes_not_provided by done. simpl.
  assert (Hrow : ∀ q, update_row (body req) (Products.id p) q = q).
  { intros q. unfold update_row. case_decide; [| done].
    unfold merge_body, merge_fields. destruct q. simpl.
    by rewrite !coalesce_not_provided by done. }
  rewrite (filter_unique_key Products.id (products db) p Hnd Hp).
  rewrite Hrow. f_equal.
  rewrite (map_ext _ id) by done. rewrite map_id. apply db_eta.
Qed.

(** *** What each route can write *)

Lemma register_products req db :
  products (register accepts jwt_sign bcrypt_hash req db).2 = products db.
Proof.
  destruct (register accepts jwt_sign bcrypt_hash req db) as [resp db'] eqn:H.
  destruct (decide (code resp = 201%Z)) as [Hc | Hc].
  - by apply register_created in H as (u & _ & Hp & _).
  - by apply register_failed in H as ->.
Qed.

Lemma approve_products req db :
  products (approve key_of req db).2 = products db.
Proof.
  unfold approve, try_catch, approve_farmer, pg_key.
  destruct (key_of (params_id req)); unfold bind, ret, throw; simpl;
    [| done].
  by destruct (length _ =? 0)%nat.
Qed.

Lemma create_product_keeps req db p :
  p ∈ products db → p ∈ products (create_product accepts req db).2.
Proof.
  intros Hp. unfold create_product, try_catch, user_id, insert_product,
    pg_int, bind, ret, throw.
  repeat (case_match; simplify_eq; simpl); try done.
  all: apply elem_of_app; by left.
Qed.

Lemma delete_product_keeps req db p :
  p ∈ products db →
  (∀ c, user req = Some c → Claims.id c ≠ JNum (Products.farmer_id p)) →
  p ∈ products (delete_product_handler key_of req db).2.
Proof.
  intros Hp Hc. unfold delete_product_handler, try_catch, user_id,
    delete_product, pg_key.
  destruct (user req) as [c|] eqn:Hu; [| done]. specialize (Hc c eq_refl).
  simpl. destruct (key_of (params_id req)) as [i|]; [| done].
  destruct (Claims.id c) as [| | |b|]; simpl; unfold bind, ret, throw;
    simpl; try done.
  all: destruct (length _ =? 0)%nat; simpl;
    apply list_elem_of_filter; (split; [| done]); intros [_ Ho];
    congruence.
Qed.

Lemma update_product_keeps req db p :
  NoDup (map Products.id (products db)) → p ∈ products db →
  (∀ c, user req = Some c → Claims.id c ≠ JNum (Products.farmer_id p)) →
  p ∈ products (update_product_handler key_of accepts req db).2.
Proof.
  intros Hnd Hp Hc.
  destruct (user req) as [c|] eqn:Hu.
  2: { unfold update_product_handler, try_catch, user_id. by rewrite Hu. }
  specialize (Hc c eq_refl).
  destruct (Claims.id c) as [| | |b|] eqn:Hid.
  1-3, 5: destruct (update_without_owner req c Hu) as [r Hr];
    [congruence | by rewrite Hr].
  destruct (key_of (params_id req)) as [i|] eqn:Hkey.
  2: { by rewrite (update_rejected req c Hu Hkey). }
  rewrite (update_run req db c b i) by done.
  destruct (filter (owned_by i (Some b)) (products db))
    as [|q qs] eqn:Hf; simpl; [done |].
  destruct (updatable accepts (body req)); [| done]. simpl.
  assert (Hq : q ∈ filter (owned_by i (Some b)) (products db))
    by (rewrite Hf; left).
  apply list_elem_of_filter in Hq as [[Hqi Hqo] Hq].
  apply list_elem_of_fmap. exists p. split; [| done].
  unfold update_row. rewrite decide_False; [done |].
  intros Hpi. apply Hc. f_equal.
  assert (p = q) as ->; [| congruence].
  assert (Hpq : filter (λ v, Products.id v = Products.id q) (products db)
                = [q]) by (by apply filter_unique_key).
  assert (Hpin : p ∈ filter (λ v, Products.id v = Products.id q)
                            (products db)).
  { apply list_elem_of_filter. split; [congruence | done]. }
  rewrite Hpq in Hpin. by apply list_elem_of_singleton in Hpin.
Qed.

(** X18.  No request changes or removes a product unless it bears a
    valid token with the id of the owner: with the product ids distinct,
    a stored product is still in the store, as it was, after any request
    to any route whose token (if it has one) carries another id. *)
Theorem products_of_others_are_untouched e req db p :
  NoDup (map Products.id (products db)) → p ∈ products db →
  (∀ c, bearer jwt_verify req c →
        Claims.id c ≠ JNum (Products.farmer_id p)) →
  p ∈ products (server e req db).2.
Proof.
  intros Hnd Hp Hc. destruct e; unfold app.
  - done.
  - by rewrite register_products.
  - by rewrite login_reads.
  - done.
  - destruct (farmer_route_uniform (create_product accepts) req)
      as [[r ->] | (c & _ & _ & _ & ->)]; [done |].
    by apply create_product_keeps.
  - destruct (farmer_route_uniform (update_product_handler key_of accepts) req)
      as [[r ->] | (c & Hb & _ & _ & ->)]; [done |].
    apply update_product_keeps; [done | done |].
    intros c' [= <-]. by apply Hc.
  - destruct (farmer_route_uniform (delete_product_handler key_of) req)
      as [[r ->] | (c & Hb & _ & _ & ->)]; [done |].
    apply delete_product_keeps; [done |].
    intros c' [= <-]. by apply Hc.
  - destruct (route _ _ req db) as [resp db'] eqn:H.
    apply route_cases in H as [-> | [req' H]]; [done |].
    unfold list_pending_farmers, try_catch in H. run H. by simplify_eq.
  - destruct (route _ _ req db) as [resp db'] eqn:H.
    apply route_cases in H as [-> | [req' H]]; [done |].
    pose proof (approve_products req' db) as Ha. rewrite H in Ha.
    simpl in *. by rewrite Ha.
Qed.

(** X21.  Each route writes at most its own table: the health check, the
    login, the public listing and the list of pending farmers leave the
    whole store as it was; the three product routes leave the users as
    they were; registration and approval leave the products as they
    were. *)
Theorem routes_keep_to_their_table e req db :
  (e ∈ [GET_root; POST_auth_login; GET_products;
        GET_admin_farmers_pending] → (server e req db).2 = db) ∧
  (e ∈ [POST_products; PUT_products_id; DELETE_products_id] →
   users (server e req db).2 = users db) ∧
  (e ∈ [POST_auth_register; PATCH_admin_farmers_id_approve] →
   products (server e req db).2 = products db).
Proof.
  split; [| split]; intros He; apply list_elem_of_In in He; simpl in He.
  - destruct He as [<- | [<- | [<- | [<- | []]]]]; unfold app; try done.
    + apply login_reads.
    + destruct (route _ _ req db) as [resp db'] eqn:H.
      apply route_cases in H as [-> | [req' H]]; [done |].
      unfold list_pending_farmers, try_catch in H. run H. by simplify_eq.
  - destruct He as [<- | [<- | [<- | []]]]; unfold app;
      destruct (route _ _ req db) as [resp db'] eqn:H;
      apply route_cases in H as [-> | [req' H]]; try done; simpl.
    + by rewrite <- (create_product_users accepts req' db), H.
    + by rewrite <- (update_product_users key_of accepts req' db), H.
    + by rewrite <- (delete_product_users key_of req' db), H.
  - destruct He as [<- | [<- | []]]; unfold app.
    + apply register_products.
    + destruct (route _ _ req db) as [resp db'] eqn:H.
      apply route_cases in H as [-> | [req' H]]; [done |].
      simpl. by rewrite <- (approve_products req' db), H.
Qed.

(** *** The admin routes *)

#[local] Instance older_first_total : Total older_first.
Proof. intros x y. unfold older_first. lia. Qed.

#[local] Instance older_first_trans : Transitive older_first.
Proof. intros x y z. unfold older_first. lia. Qed.

Lemma admin_reaches (h : Handler) req db c :
  bearer jwt_verify req c → Claims.role c = JStr "admin" →
  route [auth jwt_verify; requireRole ["admin"]] h req db =
    h (authenticated req c) db.
Proof.
  intros Hb Hr. simpl. rewrite (auth_bearer _ _ _ Hb).
  unfold requireRole. simpl. rewrite bool_decide_eq_true_2; [done |].
  rewrite Hr. left.
Qed.

(** X22.  To an admin the list of pending farmers answers 200 with the
    rows of exactly the stored users that are farmers with status
    pending, ordered by [created_at], oldest first; a row has the keys
    id, name, email, role, status and created_at, not the password hash;
    the store is left as it was. *)
Theorem pending_farmers_listed req db c :
  bearer jwt_verify req c → Claims.role c = JStr "admin" →
  ∃ pending,
    server GET_admin_farmers_pending req db =
      (mkResponse 200 (JsonRows (map Users.pending_row pending)), db) ∧
    (∀ u, u ∈ pending ↔
          u ∈ users db ∧ Users.role u = "farmer" ∧
          Users.status u = "pending") ∧
    StronglySorted
      (λ x y, (Users.created_at x ≤ Users.created_at y)%Z) pending ∧
    (∀ u, keys (Users.pending_row u) =
            ["id"; "name"; "email"; "role"; "status"; "created_at"]).
Proof.
  intros Hb Hr. unfold app. rewrite (admin_reaches _ _ _ c) by done.
  eexists. split; [reflexivity |].
  split; [| split; [| intros u; reflexivity]].
  - intros u. rewrite merge_sort_Permutation, list_elem_of_filter. tauto.
  - apply (StronglySorted_merge_sort older_first).
Qed.

Lemma approve_run req db i :
  key_of (params_id req) = Some i →
  approve key_of req db =
    (if (length (filter (farmer_with_id i) (users db)) =? 0)%nat
     then json_error 404 "Farmer not found or already approved"
     else json_ok,
     mkDB (map (λ u, if decide (farmer_with_id i u)
                     then Users.set_status "approved" u else u) (users db))
          (products db) (users_id_seq db) (products_id_seq db) (now db)).
Proof.
  intros Hkey. unfold approve, try_catch, approve_farmer, pg_key.
  rewrite Hkey. unfold bind, ret. simpl.
  by destruct (length _ =? 0)%nat.
Qed.

(** X23.  After an admin has sent an approval for an id, no user with
    that id is in the list of pending farmers, whatever the answer to the
    approval was. *)
Theorem approved_farmer_leaves_pending_list req req' db c c' :
  bearer jwt_verify req c → Claims.role c = JStr "admin" →
  bearer jwt_verify req' c' → Claims.role c' = JStr "admin" →
  ∃ pending,
    (server GET_admin_farmers_pending req'
       (server PATCH_admin_farmers_id_approve req db).2).1 =
      mkResponse 200 (JsonRows (map Users.pending_row pending)) ∧
    ∀ u, u ∈ pending → key_of (params_id req) ≠ Some (Users.id u).
Proof.
  intros Hb Hr Hb' Hr'. unfold app.
  rewrite (admin_reaches (approve key_of) req db c) by done.
  rewrite (admin_reaches list_pending_farmers req' _ c') by done.
  eexists. split; [reflexivity |].
  intros u. rewrite merge_sort_Permutation, list_elem_of_filter.
  intros [[Hur Hus] Hu] Hid.
  rewrite (approve_run (authenticated req c) db (Users.id u)) in Hu
    by done.
  simpl in Hu.
  apply list_elem_of_fmap in Hu as (v & Hv & Hin).
  destruct (decide (farmer_with_id (Users.id u) v)) as [Hf | Hf].
  - by subst u.
  - subst v. apply Hf. by split.
Qed.

(** X24.  Approval opens the catalogue at once: when an admin approves a
    stored farmer, the answer is 200 and every product of that farmer is
    in the next public listing, under the name of the farmer. *)
Theorem approval_makes_products_public req req' db c u p :
  bearer jwt_verify req c → Claims.role c = JStr "admin" →
  u ∈ users db → key_of (params_id req) = Some (Users.id u) →
  Users.role u = "farmer" →
  p ∈ products db → Products.farmer_id p = Users.id u →
  (server PATCH_admin_farmers_id_approve req db).1 = json_ok ∧
  ∃ rows,
    (server GET_products req'
       (server PATCH_admin_farmers_id_approve req db).2).1 =
      mkResponse 200 (JsonRows rows) ∧
    Products.public_row (p, Users.set_status "approved" u) ∈ rows ∧
    get "farmer_name"
      (Products.public_row (p, Users.set_status "approved" u)) =
      JStr (Users.name u).
Proof.
  intros Hb Hr Hu Hid Hur Hp Hown. unfold app.
  rewrite (admin_reaches _ _ _ c) by done.
  assert (Hf : farmer_with_id (Users.id u) u) by (by split).
  split;
    [by apply (approve_any_status key_of (authenticated req c) db u
                 (Users.id u)) |].
  rewrite list_products_run. simpl.
  eexists. split; [done |]. split; [| done].
  apply list_elem_of_fmap. eexists. split; [done |].
  by apply (approval_shows_products key_of (authenticated req c) db p u
              (Users.id u)).
Qed.

(** *** The seeding script *)

(** X25.  The seeding script can be run again and again without writing
    a row twice: once it has run, a user with the admin email is stored
    and a further run leaves the users and the products as they were;
    and when a user with that email is already stored, the script leaves
    every row, that user's password included, as it was.  A run that
    finds the email stored is not without trace, though: the row it
    tried has drawn an id from the sequence of the users, so the next
    user to be stored gets an id one higher. *)
Theorem seed_admin_is_idempotent db :
  "admin@temo.local" ∈ map Users.email (users (seed_admin bcrypt_hash db).2) ∧
  (let d := (seed_admin bcrypt_hash db).2 in
   seed_admin bcrypt_hash d =
     (Ret (), mkDB (users d) (products d) (users_id_seq d + 1)
                   (products_id_seq d) (now d))) ∧
  ("admin@temo.local" ∈ map Users.email (users db) →
   seed_admin bcrypt_hash db =
     (Ret (), mkDB (users db) (products db) (users_id_seq db + 1)
                   (products_id_seq db) (now db))).
Proof.
  assert (Hin : "admin@temo.local" ∈
            map Users.email (users (seed_admin bcrypt_hash db).2)).
  { unfold seed_admin, hash, bind, ret. simpl.
    case_bool_decide; simpl; [done |].
    rewrite map_app. apply elem_of_app. right. left. }
  split; [done |]. split.
  - revert Hin. generalize (seed_admin bcrypt_hash db).2. intros d Hd.
    unfold seed_admin, hash, bind, ret. simpl.
    by rewrite bool_decide_eq_true_2.
  - intros Hd. unfold seed_admin, hash, bind, ret. simpl.
    by rewrite bool_decide_eq_true_2.
Qed.

Lemma login_run req db u pw :
  NoDup (map Users.email (users db)) → u ∈ users db →
  field (body req) "email" = JStr (Users.email u) →
  field (body req) "password" = JStr pw →
  bcrypt_compare pw (Users.password_hash u) = true →
  login jwt_sign bcrypt_compare req db =
    (mkResponse 200
       (JsonUserToken (omit "password_hash" (Users.row u))
                      (jwt_sign (claims_of u))), db).
Proof.
  intros Hnd Hu He Hp Hok.
  unfold login, try_catch, select_users_by_email, bind, ret.
  rewrite He, Hp. simpl.
  rewrite (filter_unique_key Users.email (users db) u Hnd Hu). simpl.
  by rewrite Hok.
Qed.

(** X26.  On a store with distinct emails and no user with the admin
    email, after the seeding script a login with the admin email and the
    password of the script succeeds, when [bcrypt.compare] accepts a
    password against its own hash, and the token carries the role admin
    and the status approved. *)
Theorem seeded_admin_can_log_in req db :
  bcrypt_compare "Admin@123" (bcrypt_hash "Admin@123") = true →
  NoDup (map Users.email (users db)) →
  "admin@temo.local" ∉ map Users.email (users db) →
  field (body req) "email" = JStr "admin@temo.local" →
  field (body req) "password" = JStr "Admin@123" →
  ∃ safe id,
    (server POST_auth_login req (seed_admin bcrypt_hash db).2).1 =
      mkResponse 200
        (JsonUserToken safe
           (jwt_sign (Claims.mk (JNum id) (JStr "admin") (JStr "approved")
                                (JStr "Admin")))).
Proof.
  intros Hok Hnd Hfresh He Hp.
  set (u := Users.mk (users_id_seq db) "Admin" "admin@temo.local"
              (bcrypt_hash "Admin@123") "admin" "approved" (now db)).
  assert (Hseed : (seed_admin bcrypt_hash db).2 =
            mkDB (users db ++ [u]) (products db) (users_id_seq db + 1)
                 (products_id_seq db) (now db + 1)).
  { unfold seed_admin, hash, bind, ret. simpl.
    by rewrite bool_decide_eq_false_2. }
  rewrite Hseed. unfold app.
  rewrite (login_run req _ u "Admin@123"); simpl; try done.
  - by eexists _, _.
  - rewrite map_app. apply NoDup_app. split; [done |]. split.
    + intros x Hx Hx'. apply list_elem_of_In in Hx'. simpl in Hx'.
      destruct Hx' as [<- | []]. done.
    + apply NoDup_singleton.
  - apply elem_of_app. right. left.
Qed.

(** *** The login form against the server *)

Lemma form_body_email email password :
  field (<["email" := JStr email]> {["password" := JStr password]}) "email"
    = JStr email.
Proof. unfold field. by rewrite lookup_insert_eq. Qed.

Lemma form_body_password email password :
  field (<["email" := JStr email]> {["password" := JStr password]})
    "password" = JStr password.
Proof.
  unfold field. rewrite lookup_insert_ne by done.
  by rewrite lookup_singleton_eq.
Qed.


(** The page a role is sent to. *)
Lemma form_page_cases (r : string) :
  r ∈ ["consumer"; "farmer"; "admin"] →
  (if bool_decide (JStr r = JStr "consumer")
   then [LoginForm.Navigate "consumer-home.html"]
   else if bool_decide (JStr r = JStr "farmer")
   then [LoginForm.Navigate "farmer-home.html"]
   else if bool_decide (JStr r = JStr "admin")
   then [LoginForm.Navigate "admin-dashboard.html"]
   else []) =
  [LoginForm.Navigate
     (if decide (r = "consumer") then "consumer-home.html"
      else if decide (r = "farmer") then "farmer-home.html"
      else "admin-dashboard.html")].
Proof.
  intros Hr. apply list_elem_of_In in Hr. simpl in Hr.
  by destruct Hr as [<- | [<- | [<- | []]]].
Qed.

(** X28.  Through the login form, with distinct emails in the store, the
    email of a stored consumer, farmer or admin and a password that
    [bcrypt.compare] accepts make the page store the token signed from
    that user under the key "token" and then go to the home page of the
    role: consumer-home.html, farmer-home.html or
    admin-dashboard.html. *)
Theorem form_login_redirects_by_role db u password :
  NoDup (map Users.email (users db)) → u ∈ users db →
  bcrypt_compare password (Users.password_hash u) = true →
  Users.role u ∈ ["consumer"; "farmer"; "admin"] →
  LoginForm.submit
    (λ b, Some (server POST_auth_login (login_request b) db).1)
    (Users.email u) password =
    [LoginForm.PreventDefault;
     LoginForm.SetItem "token" (JStr (jwt_sign (claims_of u)));
     LoginForm.Navigate
       (if decide (Users.role u = "consumer") then "consumer-home.html"
        else if decide (Users.role u = "farmer") then "farmer-home.html"
        else "admin-dashboard.html")].
Proof.
  intros Hnd Hu Hok Hr. unfold LoginForm.submit, app.
  rewrite (login_run (login_request _) db u password Hnd Hu
             (form_body_email _ _) (form_body_password _ _) Hok).
  simpl. by rewrite form_page_cases.
Qed.
End Further.

(** X29.  Whatever the server answers, the login form stores nothing but
    the token of an answer that is ok (a 2xx status with a JSON body),
    under the key "token", once, as the first thing it does after the
    answer; it leaves the page only for one of the three home pages and
    only after it has stored the token: the effects are then exactly the
    storing of the token followed by the navigation, in this order; and a
    request that fails, or an answer that is not JSON, ends in the alert
    "Server error. Try again later." with nothing stored. *)
Theorem form_stores_token_only_when_ok fetch email password :
  let sent := <["email" := JStr email]> {["password" := JStr password]} in
  let effects := LoginForm.submit fetch email password in
  (∀ k v, LoginForm.SetItem k v ∈ effects →
     k = "token" ∧
     (∃ res data, fetch sent = Some res ∧ LoginForm.ok res = true ∧
        LoginForm.json res = Some data ∧ v = LoginForm.token data) ∧
     ∃ rest,
       effects =
         LoginForm.PreventDefault :: LoginForm.SetItem "token" v :: rest ∧
       ∀ k' v', LoginForm.SetItem k' v' ∉ rest) ∧
  (∀ h, LoginForm.Navigate h ∈ effects →
     h ∈ ["consumer-home.html"; "farmer-home.html"; "admin-dashboard.html"] ∧
     ∃ v, effects = [LoginForm.PreventDefault; LoginForm.SetItem "token" v;
                     LoginForm.Navigate h]) ∧
  (fetch sent = None ∨
   (∃ res, fetch sent = Some res ∧ LoginForm.json res = None) →
   effects = [LoginForm.PreventDefault; LoginForm.ConsoleError;
              LoginForm.Alert (JStr "Server error. Try again later.")]).
Proof.
  intros sent effects. subst effects. unfold LoginForm.submit.
  fold sent. destruct (fetch sent) as [res|]; simpl.
  2: { repeat split; try done; intros; exfalso;
       match goal with H : _ ∈ _ |- _ =>
         apply list_elem_of_In in H; simpl in H; intuition discriminate
       end. }
  destruct (LoginForm.json res) as [data|] eqn:Hj; simpl.
  2: { split; [| split]; [| | done]; intros; exfalso;
       match goal with H : _ ∈ _ |- _ =>
         apply list_elem_of_In in H; simpl in H; intuition discriminate
       end. }
  destruct (LoginForm.ok res) eqn:Hok; simpl.
  2: { split; [| split]; [| | intros [? | (? & [= <-] & ?)]; congruence];
       intros; exfalso;
       match goal with H : _ ∈ _ |- _ =>
         apply list_elem_of_In in H; simpl in H; intuition discriminate
       end. }
  split; [| split]; [| | intros [? | (? & [= <-] & ?)]; congruence].
  - assert (Hrest : ∀ k' v',
              LoginForm.SetItem k' v' ∉
                match LoginForm.user_role data with
                | Some role =>
                    if bool_decide (role = JStr "consumer")
                    then [LoginForm.Navigate "consumer-home.html"]
                    else if bool_decide (role = JStr "farmer")
                    then [LoginForm.Navigate "farmer-home.html"]
                    else if bool_decide (role = JStr "admin")
                    then [LoginForm.Navigate "admin-dashboard.html"]
                    else []
                | None => LoginForm.server_down
                end).
    { intros k' v' Hin. unfold LoginForm.server_down in Hin.
      apply list_elem_of_In in Hin.
      destruct (LoginForm.user_role data); repeat case_bool_decide;
        simpl in Hin; intuition discriminate. }
    intros k v Hin. apply list_elem_of_In in Hin. simpl in Hin.
    destruct Hin as [? | [[= <- <-] | Hin]]; [done | |].
    + split; [done |]. split; [by exists res, data |].
      eexists. split; [reflexivity | exact Hrest].
    + exfalso. by apply (Hrest k v), list_elem_of_In.
  - intros h Hin. apply list_elem_of_In in Hin. simpl in Hin.
    destruct Hin as [? | [? | Hin]]; [done.. |].
    unfold LoginForm.server_down in *.
    destruct (LoginForm.user_role data); repeat case_bool_decide;
      simpl in Hin; try (intuition discriminate).
    all: destruct Hin as [[= <-] | []].
    all: split; [apply list_elem_of_In; simpl; auto | by eexists].
Qed.

(** ** The further properties at work on the sample store *)

Ltac sample_bearer tok :=
  exists tok; split; [reflexivity | split; [discriminate | reflexivity]].

Ltac sample_in := apply list_elem_of_In; simpl; auto 10.

Ltac sample_not_falsy := unfold falsy; vm_compute; intuition discriminate.

Ltac sample_nodup := apply (bool_decide_unpack _); vm_compute; exact I.

Lemma auth_outcome_witness :
  auth Sample.verify Scenario.no_header =
    Respond (json_error 401 "Missing token").
Proof.
  apply (auth_outcome Sample.verify Scenario.no_header).
  intros tok _. discriminate.
Defined.

Lemma protected_needs_token_witness :
  ∃ msg,
    Sample.server PATCH_admin_farmers_id_approve Scenario.no_header
      Sample.db = (json_error 401 msg, Sample.db) ∧
    (msg = "Missing token" ∨ msg = "Invalid token").
Proof.
  apply (protected_needs_token Sample.key_of Sample.accepts Sample.sign
           Sample.verify Sample.hash
           Sample.compare PATCH_admin_farmers_id_approve
           Scenario.no_header Sample.db).
  - unfold protected. sample_in.
  - intros c (tok & Hhdr & _). discriminate.
Defined.

Lemma admin_routes_need_admin_witness :
  Sample.server GET_admin_farmers_pending Scenario.bob_lists_pending
    Sample.db = (json_error 403 "Forbidden", Sample.db).
Proof.
  apply (admin_routes_need_admin Sample.key_of Sample.accepts Sample.sign
           Sample.verify Sample.hash
           Sample.compare GET_admin_farmers_pending
           Scenario.bob_lists_pending Sample.db Sample.bob).
  - sample_in.
  - sample_bearer "bob".
  - discriminate.
Defined.

Lemma register_missing_fields_witness :
  Sample.server POST_auth_register Scenario.nameless Sample.db =
    (json_error 400 "Missing fields", Sample.db).
Proof.
  apply (register_missing_fields Sample.key_of Sample.accepts Sample.sign
           Sample.verify Sample.hash
           Sample.compare Scenario.nameless Sample.db).
  left. left. reflexivity.
Defined.

Lemma register_invalid_role_witness :
  Sample.server POST_auth_register Scenario.dave_as_admin Sample.db =
    (json_error 400 "Invalid role", Sample.db).
Proof.
  apply (register_invalid_role Sample.key_of Sample.accepts Sample.sign
           Sample.verify Sample.hash
           Sample.compare Scenario.dave_as_admin Sample.db).
  1-4: sample_not_falsy.
  all: vm_compute; discriminate.
Defined.

Lemma register_duplicate_email_witness :
  Sample.server POST_auth_register Scenario.alice_again Sample.db =
    (json_error 409 "Email already registered", Sample.db).
Proof.
  apply (register_duplicate_email Sample.key_of Sample.accepts Sample.sign
           Sample.verify Sample.hash
           Sample.compare Scenario.alice_again Sample.db Sample.u_alice
           "farmer").
  1-2: sample_not_falsy.
  - reflexivity.
  - sample_in.
  - sample_in.
  - reflexivity.
  - discriminate.
Defined.

Lemma register_succeeds_witness :
  Sample.server POST_auth_register Scenario.erin_registers Sample.db =
    (mkResponse 201
       (JsonUserToken
          (Users.returning
             (Users.mk 4 "Erin" "erin@temo.local" (Sample.hash "endive")
                       "consumer" "approved" 30))
          (Sample.sign
             (claims_of
                (Users.mk 4 "Erin" "erin@temo.local" (Sample.hash "endive")
                          "consumer" "approved" 30)))),
     mkDB (users Sample.db ++
             [Users.mk 4 "Erin" "erin@temo.local" (Sample.hash "endive")
                       "consumer" "approved" 30])
          (products Sample.db) 5 4 31).
Proof.
  apply (register_succeeds Sample.key_of Sample.accepts Sample.sign
           Sample.verify Sample.hash
           Sample.compare Scenario.erin_registers Sample.db
           "Erin" "erin@temo.local" "endive" "consumer").
  1-4: reflexivity.
  1-3: discriminate.
  - sample_in.
  - reflexivity.
  - reflexivity.
  - intros Hin. apply list_elem_of_In in Hin. simpl in Hin.
    intuition discriminate.
Defined.

Lemma emails_stay_unique_witness :
  NoDup (map Users.email
           (users (Sample.server POST_auth_register Scenario.erin_registers
                     Sample.db).2)).
Proof.
  apply (emails_stay_unique Sample.key_of Sample.accepts Sample.sign
           Sample.verify Sample.hash
           Sample.compare POST_auth_register Scenario.erin_registers
           Sample.db).
  sample_nodup.
Defined.

Lemma statuses_stay_ok_witness :
  Forall status_ok
    (users (Sample.server PATCH_admin_farmers_id_approve
              Scenario.admin_approves_alice Sample.db).2).
Proof.
  apply (statuses_stay_ok Sample.key_of Sample.accepts Sample.sign
           Sample.verify Sample.hash
           Sample.compare PATCH_admin_farmers_id_approve
           Scenario.admin_approves_alice Sample.db).
  apply Forall_forall. intros u Hu. apply list_elem_of_In in Hu.
  simpl in Hu. unfold status_ok.
  destruct Hu as [<- | [<- | [<- | []]]]; simpl; auto.
Defined.

Lemma login_succeeds_witness :
  Sample.server POST_auth_login Scenario.alice_logs_in Sample.db =
    (mkResponse 200
       (JsonUserToken (omit "password_hash" (Users.row Sample.u_alice))
                      (Sample.sign (claims_of Sample.u_alice))),
     Sample.db).
Proof.
  apply (login_succeeds Sample.key_of Sample.accepts Sample.sign
           Sample.verify Sample.hash
           Sample.compare Scenario.alice_logs_in Sample.db Sample.u_alice
           "apples").
  - sample_nodup.
  - sample_in.
  - reflexivity.
  - reflexivity.
  - reflexivity.
Defined.

Lemma login_token_authenticates_witness :
  ∃ u us pw,
    u ∈ users Sample.db ∧
    pg_text (field (body Scenario.alice_logs_in) "email") =
      Some (Users.email u) ∧
    filter (λ v, Users.email v = Users.email u) (users Sample.db) =
      u :: us ∧
    field (body Scenario.alice_logs_in) "password" = JStr pw ∧
    Sample.compare pw (Users.password_hash u) = true ∧
    payload (Sample.server POST_auth_login Scenario.alice_logs_in
               Sample.db).1 =
      JsonUserToken (omit "password_hash" (Users.row u))
                    (Sample.sign (claims_of u)) ∧
    ∀ req2,
      authorization req2 = Some ("Bearer " +:+ Sample.sign (claims_of u)) →
      auth Sample.verify req2 = Next (authenticated req2 (claims_of u)).
Proof.
  apply (login_token_authenticates Sample.key_of Sample.accepts Sample.sign
           Sample.verify Sample.hash
           Sample.compare Scenario.alice_logs_in Sample.db
           (Sample.server POST_auth_login Scenario.alice_logs_in
              Sample.db).1
           (Sample.server POST_auth_login Scenario.alice_logs_in
              Sample.db).2).
  - intros u Hu. apply list_elem_of_In in Hu. simpl in Hu.
    destruct Hu as [<- | [<- | [<- | []]]]; split;
      (reflexivity || discriminate).
  - reflexivity.
  - reflexivity.
Defined.

Lemma create_succeeds_witness :
  Sample.server POST_products Scenario.bob_posts_chard Sample.db =
    (mkResponse 201
       (JsonObject
          (Products.row
             (new_product Sample.db 2 (body Scenario.bob_posts_chard)))),
     mkDB (users Sample.db)
          (products Sample.db ++
             [new_product Sample.db 2 (body Scenario.bob_posts_chard)])
          4 5 31) ∧
  Products.image_url
    (new_product Sample.db 2 (body Scenario.bob_posts_chard)) = JNull.
Proof.
  destruct (create_succeeds Sample.key_of Sample.accepts Sample.sign
              Sample.verify Sample.hash
              Sample.compare Scenario.bob_posts_chard Sample.db
              Sample.bob 2) as (H & _ & Himg & _).
  - sample_bearer "bob".
  - reflexivity.
  - reflexivity.
  - reflexivity.
  - sample_not_falsy.
  - sample_not_falsy.
  - sample_not_falsy.
  - reflexivity.
  - split; [exact H |]. apply Himg. unfold falsy. vm_compute. auto 6.
Defined.

Lemma created_product_is_listed_witness :
  ∃ rows,
    payload (Sample.server POST_products Scenario.bob_posts_chard
               Sample.db).1 =
      JsonObject
        (Products.row
           (new_product Sample.db 2 (body Scenario.bob_posts_chard))) ∧
    (Sample.server GET_products Scenario.no_header
       (Sample.server POST_products Scenario.bob_posts_chard
          Sample.db).2).1 = mkResponse 200 (JsonRows rows) ∧
    Products.public_row
      (new_product Sample.db 2 (body Scenario.bob_posts_chard),
       Sample.u_bob) ∈ rows ∧
    get "farmer_name"
      (Products.public_row
         (new_product Sample.db 2 (body Scenario.bob_posts_chard),
          Sample.u_bob)) = JStr "Bob".
Proof.
  apply (created_product_is_listed Sample.key_of Sample.accepts Sample.sign
           Sample.verify Sample.hash Sample.compare
           Scenario.bob_posts_chard Scenario.no_header Sample.db
           (Sample.server POST_products Scenario.bob_posts_chard
              Sample.db).1
           (Sample.server POST_products Scenario.bob_posts_chard
              Sample.db).2
           Sample.bob Sample.u_bob).
  - sample_bearer "bob".
  - reflexivity.
  - reflexivity.
  - reflexivity.
  - sample_in.
  - reflexivity.
  - reflexivity.
  - reflexivity.
  - reflexivity.
Defined.

Lemma delete_succeeds_witness :
  ∃ db',
    Sample.server DELETE_products_id Scenario.bob_deletes_beets Sample.db =
      (json_ok, db') ∧
    users db' = users Sample.db ∧
    ∀ q, q ∈ products db' ↔
         q ∈ products Sample.db ∧
         ¬ (Products.id q = 1%Z ∧ Products.farmer_id q = 2%Z).
Proof.
  apply (delete_succeeds Sample.key_of Sample.accepts Sample.sign
           Sample.verify Sample.hash
           Sample.compare Scenario.bob_deletes_beets Sample.db Sample.bob
           2 Sample.p_beets).
  - sample_bearer "bob".
  - reflexivity.
  - reflexivity.
  - reflexivity.
  - sample_in.
  - reflexivity.
  - reflexivity.
Defined.

Lemma delete_again_is_not_found_witness :
  Sample.server DELETE_products_id Scenario.bob_deletes_beets
    (Sample.server DELETE_products_id Scenario.bob_deletes_beets
       Sample.db).2 =
    (json_error 404 "Product not found",
     (Sample.server DELETE_products_id Scenario.bob_deletes_beets
        Sample.db).2).
Proof.
  apply (delete_again_is_not_found Sample.key_of Sample.accepts Sample.sign
           Sample.verify Sample.hash
           Sample.compare Scenario.bob_deletes_beets Sample.db Sample.bob 2).
  - sample_bearer "bob".
  - reflexivity.
  - reflexivity.
  - reflexivity.
Defined.

Lemma products_of_others_are_untouched_witness :
  Sample.p_apples ∈
    products (Sample.server DELETE_products_id Scenario.bob_deletes_apples
                Sample.db).2.
Proof.
  apply (products_of_others_are_untouched Sample.key_of Sample.accepts
           Sample.sign
           Sample.verify
           Sample.hash Sample.compare DELETE_products_id
           Scenario.bob_deletes_apples Sample.db Sample.p_apples).
  - sample_nodup.
  - sample_in.
  - intros c (tok & Hhdr & _ & Hv).
    apply (bearer_header_inj "bob" tok) in Hhdr. subst tok.
    vm_compute in Hv. injection Hv as <-. discriminate.
Defined.

Lemma update_with_nothing_provided_witness :
  Sample.server PUT_products_id Scenario.bob_touches_beets Sample.db =
    (mkResponse 200 (JsonObject (Products.row Sample.p_beets)), Sample.db).
Proof.
  apply (update_with_nothing_provided Sample.key_of Sample.accepts Sample.sign
           Sample.verify Sample.hash
           Sample.compare Scenario.bob_touches_beets Sample.db Sample.bob
           2 Sample.p_beets).
  - sample_bearer "bob".
  - reflexivity.
  - reflexivity.
  - reflexivity.
  - intros k col Hk [Hu _]. apply list_elem_of_In in Hk. simpl in Hk.
    destruct Hk as [[= <- <-] | [[= <- <-] | [[= <- <-] | [[= <- <-]
      | [[= <- <-] | []]]]]]; by apply Hu.
  - sample_nodup.
  - sample_in.
  - reflexivity.
  - reflexivity.
Defined.

Lemma routes_keep_to_their_table_witness :
  users (Sample.server DELETE_products_id Scenario.bob_deletes_beets
           Sample.db).2 = users Sample.db.
Proof.
  apply (routes_keep_to_their_table Sample.key_of Sample.accepts Sample.sign
           Sample.verify Sample.hash
           Sample.compare DELETE_products_id Scenario.bob_deletes_beets
           Sample.db).
  sample_in.
Defined.

Lemma pending_farmers_listed_witness :
  ∃ pending,
    Sample.server GET_admin_farmers_pending Witness.admin_lists Sample.db =
      (mkResponse 200 (JsonRows (map Users.pending_row pending)),
       Sample.db) ∧
    (∀ u, u ∈ pending ↔
          u ∈ users Sample.db ∧ Users.role u = "farmer" ∧
          Users.status u = "pending") ∧
    StronglySorted
      (λ x y, (Users.created_at x ≤ Users.created_at y)%Z) pending ∧
    (∀ u, keys (Users.pending_row u) =
            ["id"; "name"; "email"; "role"; "status"; "created_at"]).
Proof.
  apply (pending_farmers_listed Sample.key_of Sample.accepts Sample.sign
           Sample.verify Sample.hash
           Sample.compare Witness.admin_lists Sample.db Sample.root).
  - sample_bearer "root".
  - reflexivity.
Defined.

Lemma approved_farmer_leaves_pending_list_witness :
  ∃ pending,
    (Sample.server GET_admin_farmers_pending Witness.admin_lists
       (Sample.server PATCH_admin_farmers_id_approve
          Scenario.admin_approves_alice Sample.db).2).1 =
      mkResponse 200 (JsonRows (map Users.pending_row pending)) ∧
    ∀ u, u ∈ pending →
         Sample.key_of (params_id Scenario.admin_approves_alice) ≠
           Some (Users.id u).
Proof.
  apply (approved_farmer_leaves_pending_list Sample.key_of Sample.accepts
           Sample.sign
           Sample.verify
           Sample.hash Sample.compare Scenario.admin_approves_alice
           Witness.admin_lists Sample.db Sample.root Sample.root).
  - sample_bearer "root".
  - reflexivity.
  - sample_bearer "root".
  - reflexivity.
Defined.

Lemma approval_makes_products_public_witness :
  (Sample.server PATCH_admin_farmers_id_approve
     Scenario.admin_approves_alice Sample.db).1 = json_ok ∧
  ∃ rows,
    (Sample.server GET_products Scenario.no_header
       (Sample.server PATCH_admin_farmers_id_approve
          Scenario.admin_approves_alice Sample.db).2).1 =
      mkResponse 200 (JsonRows rows) ∧
    Products.public_row
      (Sample.p_apples, Users.set_status "approved" Sample.u_alice) ∈ rows ∧
    get "farmer_name"
      (Products.public_row
         (Sample.p_apples, Users.set_status "approved" Sample.u_alice)) =
      JStr "Alice".
Proof.
  apply (approval_makes_products_public Sample.key_of Sample.accepts Sample.sign
           Sample.verify
           Sample.hash Sample.compare Scenario.admin_approves_alice
           Scenario.no_header Sample.db Sample.root Sample.u_alice
           Sample.p_apples).
  - sample_bearer "root".
  - reflexivity.
  - sample_in.
  - reflexivity.
  - reflexivity.
  - sample_in.
  - reflexivity.
Defined.

Lemma seed_admin_is_idempotent_witness :
  seed_admin Sample.hash Sample.db =
    (Ret (), mkDB (users Sample.db) (products Sample.db) 5 4 30).
Proof.
  apply (seed_admin_is_idempotent Sample.hash Sample.db).
  sample_in.
Defined.

Lemma seeded_admin_can_log_in_witness :
  ∃ safe id,
    (Sample.server POST_auth_login Scenario.root_logs_in
       (seed_admin Sample.hash Scenario.unseeded).2).1 =
      mkResponse 200
        (JsonUserToken safe
           (Sample.sign (Claims.mk (JNum id) (JStr "admin")
                                   (JStr "approved") (JStr "Admin")))).
Proof.
  apply (seeded_admin_can_log_in Sample.key_of Sample.accepts Sample.sign
           Sample.verify Sample.hash
           Sample.compare Scenario.root_logs_in Scenario.unseeded).
  - reflexivity.
  - sample_nodup.
  - intros Hin. apply list_elem_of_In in Hin. simpl in Hin.
    intuition discriminate.
  - reflexivity.
  - reflexivity.
Defined.


Lemma form_login_redirects_by_role_witness :
  LoginForm.submit (Scenario.fetch Sample.db) "bob@temo.local" "beets" =
    [LoginForm.PreventDefault; LoginForm.SetItem "token" (JStr "bob");
     LoginForm.Navigate "farmer-home.html"].
Proof.
  apply (form_login_redirects_by_role Sample.key_of Sample.accepts Sample.sign
           Sample.verify Sample.hash
           Sample.compare Sample.db Sample.u_bob "beets").
  - sample_nodup.
  - sample_in.
  - reflexivity.
  - sample_in.
Defined.

Lemma form_stores_token_only_when_ok_witness :
  LoginForm.submit (λ _, None) "bob@temo.local" "beets" =
    [LoginForm.PreventDefault; LoginForm.ConsoleError;
     LoginForm.Alert (JStr "Server error. Try again later.")].
Proof.
  apply (form_stores_token_only_when_ok (λ _, None) "bob@temo.local"
           "beets").
  left. reflexivity.
Defined.
